(** * A shallow embedding of insert_citekey_to_note_bib.py

    The BibTeX splitter ([get_BibTex_file_contents]), the entry codec
    ([convert_str_to_BibTexEntry], [format_BibTexEntry_to_str]), the
    note-field transform ([insert_citekey]) and the orchestration
    ([read_BibTex_file], [main]).  Python strings are Stdlib strings of
    ascii characters; a Python dict is an association list kept in
    insertion order; raised exceptions are the [Err] branch of a small
    result monad. *)

From Stdlib Require Import String Ascii List Bool Arith Lia.
From Stdlib Require Import DecimalString.
Import ListNotations.
Open Scope list_scope.
Open Scope string_scope.

(** ** Python's exceptions and a result monad *)

Inductive error : Type :=
| AssertionError (what : string)
| ValueError (what : string)
| IndexError.

Inductive result (A : Type) : Type :=
| Ok (a : A)
| Err (e : error).
Arguments Ok {A} a.
Arguments Err {A} e.

Definition bind {A B} (m : result A) (k : A -> result B) : result B :=
  match m with
  | Ok a => k a
  | Err e => Err e
  end.

Notation "x <- m ;; k" := (bind m (fun x => k))
  (at level 61, m at next level, right associativity).

(** [assert cond] in Python. *)
Definition assert (what : string) (b : bool) : result unit :=
  if b then Ok tt else Err (AssertionError what).

(** ** The [str] methods the script uses *)
Module Py.

Definition chr (n : nat) : string := String (ascii_of_nat n) EmptyString.

(** The double quote and the newline characters. *)
Definition dq : string := chr 34.
Definition nl : string := chr 10.

(** [str.isspace] on ASCII: tab, newline, vertical tab, form feed,
    carriage return, the four separators 28..31 and space. *)
Definition isspace (c : ascii) : bool :=
  let n := nat_of_ascii c in
  (((9 <=? n) && (n <=? 13)) || ((28 <=? n) && (n <=? 32)))%nat.

Fixpoint lstrip_by (p : ascii -> bool) (s : string) : string :=
  match s with
  | EmptyString => EmptyString
  | String c s' => if p c then lstrip_by p s' else s
  end.

Fixpoint rstrip_by (p : ascii -> bool) (s : string) : string :=
  match s with
  | EmptyString => EmptyString
  | String c s' =>
      let r := rstrip_by p s' in
      match r with
      | EmptyString => if p c then EmptyString else String c EmptyString
      | _ => String c r
      end
  end.

Definition strip_by (p : ascii -> bool) (s : string) : string :=
  rstrip_by p (lstrip_by p s).

Fixpoint mem (c : ascii) (s : string) : bool :=
  match s with
  | EmptyString => false
  | String d s' => Ascii.eqb c d || mem c s'
  end.

(** [s.strip()], [s.rstrip()], [s.strip(chars)], [s.lstrip(chars)]:
    the argument of the last two is a set of characters. *)
Definition strip (s : string) : string := strip_by isspace s.
Definition rstrip (s : string) : string := rstrip_by isspace s.
Definition strip_chars (chars s : string) : string :=
  strip_by (fun c => mem c chars) s.
Definition lstrip_chars (chars s : string) : string :=
  lstrip_by (fun c => mem c chars) s.

(** [s.startswith(p)], [s.endswith(p)], [p in s] for a one-character
    [p]. *)
Definition startswith (s p : string) : bool := String.prefix p s.

Definition endswith (s p : string) : bool :=
  let n := String.length s in
  let m := String.length p in
  (m <=? n)%nat && String.eqb (substring (n - m) m s) p.

Definition contains (s : string) (c : ascii) : bool := mem c s.

(** [s[1:]] and [s[1:-1]]. *)
Definition drop1 (s : string) : string :=
  match s with
  | EmptyString => EmptyString
  | String _ s' => s'
  end.

Definition slice_1_m1 (s : string) : string :=
  substring 1 (String.length s - 2) s.

(** [s.split(sep)] for a non-empty [sep]: the pieces between the
    non-overlapping occurrences of [sep], scanned from the left.
    [skip] counts the characters of a matched separator still to pass. *)
Fixpoint split_go (sep s : string) (skip : nat) (cur : string)
  : list string :=
  match s with
  | EmptyString => [cur]
  | String c s' =>
      match skip with
      | S k => split_go sep s' k cur
      | O =>
          if String.prefix sep s
          then cur :: split_go sep s' (String.length sep - 1) EmptyString
          else split_go sep s' 0 (cur ++ String c EmptyString)
      end
  end.

Definition split (s sep : string) : list string := split_go sep s 0 EmptyString.

(** [sep.join(l)]. *)
Definition join (sep : string) (l : list string) : string := String.concat sep l.

(** [l[0]] and [l[-1]] of a list that the code knows to be non-empty,
    [l[1]] raising IndexError, and [l[:-1]]. *)
Definition head0 (l : list string) : string := hd EmptyString l.
Definition last1 (l : list string) : string := last l EmptyString.
Definition index1 (l : list string) : result string :=
  match nth_error l 1 with
  | Some x => Ok x
  | None => Err IndexError
  end.
Definition drop_last (l : list string) : list string := removelast l.

(** [str(n)] for a natural number. *)
Definition str_of_nat (n : nat) : string :=
  NilEmpty.string_of_uint (Nat.to_uint n).

End Py.

Import Py.

(** ** Python dicts: insertion-ordered association lists *)
Module Dict.

Definition t := list (string * string).

(** [k in d] and [d[k]]. *)
Fixpoint get (d : t) (k : string) : option string :=
  match d with
  | [] => None
  | (k', v) :: d' => if String.eqb k' k then Some v else get d' k
  end.

(** [d[k] = v]: an existing key keeps its place, a new key goes last. *)
Fixpoint set (d : t) (k v : string) : t :=
  match d with
  | [] => [(k, v)]
  | (k', v') :: d' =>
      if String.eqb k' k then (k', v) :: d' else (k', v') :: set d' k v
  end.

(** [d.keys()]. *)
Definition keys (d : t) : list string := map fst d.

End Dict.

(** ** The entry record (the namedtuple [BibTexEntry]) *)
Record BibTexEntry : Type := mkEntry {
  citekey : string;
  entry_type : string;
  data : Dict.t
}.

(** ** [convert_str_to_BibTexEntry] *)

(** One iteration of the loop over [enumerate(meta_data)]: the state is
    the pair of the Python variables [field] and [data].  [field] is
    assigned in the iteration [i == 0], which always comes first, before
    any iteration reads it; it starts as the empty string here. *)
Definition meta_step (n : nat) (st : string * Dict.t) (ie : nat * string)
  : string * Dict.t :=
  let (field, d) := st in
  let (i, element) := ie in
  if Nat.eqb i 0 then (strip element, d)
  else if Nat.eqb i (n - 1) then (field, Dict.set d field (rstrip element))
  else
    let parts := split (strip element) "," in
    let prev_field_value := join "," (drop_last parts) in
    (last1 parts, Dict.set d field prev_field_value).

Definition enumerate (l : list string) : list (nat * string) :=
  combine (seq 0 (length l)) l.

Definition collect_data (meta_data : list string) : Dict.t :=
  snd (fold_left (meta_step (length meta_data)) (enumerate meta_data)
         (EmptyString, [])).

(** The header part of the decoder: the assertions, the entry type, the
    citekey and the field-list text [meta] whose [split('=')] is
    [meta_data]. *)
Definition decode_header (entry : string)
  : result (string * string * string) :=
  _ <- assert "entry.startswith('@')" (startswith entry "@") ;;
  _ <- assert "'{' in entry" (contains entry "{"%char) ;;
  let entry_type := head0 (split (drop1 entry) "{") in
  if String.eqb entry_type EmptyString then Err (ValueError "empty separator")
  else
  entry_wo_entry_type <- index1 (split (drop1 entry) entry_type) ;;
  _ <- assert "entry_wo_entry_type.startswith('{')"
         (startswith entry_wo_entry_type "{") ;;
  _ <- assert "entry_wo_entry_type.endswith('}')"
         (endswith entry_wo_entry_type "}") ;;
  let body := slice_1_m1 entry_wo_entry_type in
  let citekey := head0 (split body ",") in
  let meta := lstrip_chars "," (lstrip_chars citekey body) in
  Ok (entry_type, citekey, meta).

Definition convert_str_to_BibTexEntry (entry : string) : result BibTexEntry :=
  h <- decode_header entry ;;
  let '(entry_type, citekey, meta) := h in
  Ok (mkEntry citekey entry_type (collect_data (split meta "="))).

(** ** [format_BibTexEntry_to_str] *)
Definition format_BibTexEntry_to_str (e : BibTexEntry) : string :=
  let data_str :=
    join nl (map (fun '(field, value) => field ++ " = " ++ value ++ ",")
                 (data e)) in
  "@" ++ entry_type e ++ "{" ++ citekey e ++ "," ++ nl ++ data_str
    ++ nl ++ "}".

(** ** [insert_citekey] (the inserted field is hard-coded to note) *)
Definition insert_field : string := "note".

Definition insert_citekey (entry : BibTexEntry) (prefix suffix : string)
  : BibTexEntry :=
  match Dict.get (data entry) insert_field with
  | None =>
      mkEntry (citekey entry) (entry_type entry)
        (Dict.set (data entry) insert_field
           (dq ++ prefix ++ citekey entry ++ suffix ++ dq))
  | Some v =>
      let existing_note := strip_chars dq v in
      let new_note :=
        dq ++ existing_note ++ (nl ++ prefix ++ citekey entry ++ suffix) ++ dq in
      mkEntry (citekey entry) (entry_type entry)
        (Dict.set (data entry) insert_field new_note)
  end.

Definition insert_citekey_to_note (entries : list BibTexEntry)
  (prefix suffix : string) : list BibTexEntry :=
  map (fun e => insert_citekey e prefix suffix) entries.

(** ** [get_BibTex_file_contents]: the file is the list of its lines.
    The state of the loop is the pair [contents], [tmp_lines]. *)
Definition contents_step (st : list string * list string) (l : string)
  : list string * list string :=
  let (contents, tmp_lines) := st in
  let line := strip l in
  if startswith line "%" then st
  else if String.eqb line EmptyString then st
  else if startswith line "@" then
    let contents' :=
      if Nat.ltb 0 (length tmp_lines)
      then (contents ++ [join EmptyString tmp_lines])%list else contents in
    (contents', [line])
  else (contents, (tmp_lines ++ [line])%list).

Definition get_BibTex_file_contents (file : list string) : list string :=
  let (contents, tmp_lines) := fold_left contents_step file ([], []) in
  (contents ++ [join EmptyString tmp_lines])%list.

(** ** [read_BibTex_file] *)
Fixpoint map_result {A B} (f : A -> result B) (l : list A) : result (list B) :=
  match l with
  | [] => Ok []
  | x :: l' => y <- f x ;; ys <- map_result f l' ;; Ok (y :: ys)
  end.

Definition uniqueness_msg : string :=
  "The number of entries and citekey does not match".

Definition read_BibTex_file (file : list string) : result (list BibTexEntry) :=
  let contents := get_BibTex_file_contents file in
  entries <- map_result convert_str_to_BibTexEntry contents ;;
  let citekey_set := nodup string_dec (map citekey entries) in
  _ <- assert uniqueness_msg
         (Nat.eqb (length entries) (length citekey_set)) ;;
  Ok entries.

(** ** [save_as_BibTex_file]: the text written to the output file
    (each [print] ends its text with a newline). *)
Definition save_as_BibTex_file (entries : list BibTexEntry) : string :=
  let out_lines := map format_BibTexEntry_to_str entries in
  "% itemnum: " ++ str_of_nat (length out_lines) ++ nl
    ++ join nl out_lines ++ nl.

(** ** [main]: the file system is the test [isfile] on paths, the input
    file is given by its lines; the result is the output file created,
    as its path and text. *)
Definition main (isfile : string -> bool) (input_file : list string)
  (output_file_path prefix suffix : string) : result (string * string) :=
  if String.eqb output_file_path EmptyString
  then Err (ValueError "Please give output_file_path.")
  else if isfile output_file_path
  then Err (ValueError ("File exists: " ++ output_file_path))
  else
    bibtex_entries <- read_BibTex_file input_file ;;
    let new_bibtex_entries := insert_citekey_to_note bibtex_entries prefix suffix in
    Ok (output_file_path, save_as_BibTex_file new_bibtex_entries).

(** ** Reading aids for the properties below *)

(** The token stitching of the field list as the specification words it:
    the field-list text is split on [=]; the first token, trimmed, names
    the first field; each middle token is cut at its last comma into the
    value of the pending field and the next field name; the last token,
    right-trimmed, is the value of the last field. *)
Module Stitch.

(** The text before and after the last comma of [s], if any. *)
Fixpoint last_comma_split (s : string) : option (string * string) :=
  match s with
  | EmptyString => None
  | String c s' =>
      match last_comma_split s' with
      | Some (b, a) => Some (String c b, a)
      | None => if Ascii.eqb c ","%char then Some (EmptyString, s') else None
      end
  end.

(** A middle token, cut at its last comma as it stands. *)
Definition middle_words (t : string) : string * string :=
  match last_comma_split t with
  | Some (b, a) => (b, a)
  | None => (EmptyString, t)
  end.

(** A middle token, first trimmed of the white space around it. *)
Definition middle (t : string) : string * string := middle_words (strip t).

Section Go.
Variable mid : string -> string * string.

Fixpoint stitch_go (name : string) (mids : list string) (lastt : string)
  : list (string * string) :=
  match mids with
  | [] => [(name, rstrip lastt)]
  | m :: ms => let (v, nx) := mid m in (name, v) :: stitch_go nx ms lastt
  end.

(** The (name, value) assignments in the order the tokens give them. *)
Definition stitch_pairs (tokens : list string) : list (string * string) :=
  match tokens with
  | [] | [_] => []
  | t0 :: rest => stitch_go (strip t0) (removelast rest) (last rest EmptyString)
  end.
End Go.

(** Storing the assignments in a dict, in their order. *)
Definition dict_of_pairs (ps : list (string * string)) : Dict.t :=
  fold_left (fun d kv => Dict.set d (fst kv) (snd kv)) ps [].

(** The fields map as worded, and with trimmed middle tokens. *)
Definition fields_words (meta : string) : Dict.t :=
  dict_of_pairs (stitch_pairs middle_words (split meta "=")).

Definition fields (meta : string) : Dict.t :=
  dict_of_pairs (stitch_pairs middle (split meta "=")).

(** The value of the last assignment to [k]. *)
Fixpoint last_value (ps : list (string * string)) (k : string) : option string :=
  match ps with
  | [] => None
  | (k', v) :: ps' =>
      match last_value ps' k with
      | Some w => Some w
      | None => if String.eqb k' k then Some v else None
      end
  end.

End Stitch.

(** A line the splitter drops: blank, or a comment, once stripped. *)
Definition ignorable (l : string) : bool :=
  let line := strip l in startswith line "%" || String.eqb line EmptyString.

(** [ys] is [xs] with dropped lines inserted anywhere. *)
Inductive inserted_ignorable : list string -> list string -> Prop :=
| ii_nil : inserted_ignorable [] []
| ii_keep x xs ys :
    inserted_ignorable xs ys -> inserted_ignorable (x :: xs) (x :: ys)
| ii_add x xs ys :
    ignorable x = true -> inserted_ignorable xs ys -> inserted_ignorable xs (x :: ys).

(** [n] double quotes. *)
Fixpoint quotes (n : nat) : string :=
  match n with
  | O => EmptyString
  | S k => dq ++ quotes k
  end.

(** Neither the first nor the last character of [m] is a double quote. *)
Definition quote_free_ends (m : string) : Prop :=
  (forall c r, m = String c r -> c <> ascii_of_nat 34) /\
  (forall p c, m = p ++ String c EmptyString -> c <> ascii_of_nat 34).

(** The fields other than [k], in their order. *)
Definition other_than (k : string) (kv : string * string) : bool :=
  negb (String.eqb (fst kv) k).

(** [cur] put in front of the first piece of a split. *)
Definition prepend_first (cur : string) (l : list string) : list string :=
  match l with
  | p :: ps => (cur ++ p) :: ps
  | [] => []
  end.

(** One assignment [d[k] = v] of a (name, value) pair. *)
Definition set_pair (d : Dict.t) (kv : string * string) : Dict.t :=
  Dict.set d (fst kv) (snd kv).

(** The decoder's preconditions as the specification words them: the
    chunk starts with [@], contains an opening brace, the text between
    [@] and the first opening brace (the type) is not empty, and the
    chunk without its leading [@] and type starts with an opening brace
    and ends with a closing one. *)
Fixpoint upto_brace (s : string) : string * string :=
  match s with
  | EmptyString => (EmptyString, EmptyString)
  | String c s' =>
      if Ascii.eqb c "{"%char then (EmptyString, s)
      else let (b, a) := upto_brace s' in (String c b, a)
  end.

Definition decode_preconditions (c : string) : bool :=
  let (ty, rest) := upto_brace (drop1 c) in
  startswith c "@" && contains c "{"%char && negb (String.eqb ty EmptyString)
  && startswith rest "{" && endswith rest "}".

(** ** [cut_quotation] (used on the values of the control file) *)

(** [s.count(c)] for a one-character [c]. *)
Fixpoint count_char (c : ascii) (s : string) : nat :=
  match s with
  | EmptyString => 0
  | String d s' => (if Ascii.eqb c d then 1 else 0) + count_char c s'
  end.

(** The single quote character. *)
Definition sq : string := chr 39.

Definition dq_msg (s : string) : string :=
  "Unexpected number of double quotations is found in " ++ s ++ ". should be 2.".

Definition sq_msg (s : string) : string :=
  "Unexpected number of single quotations is found in " ++ s ++ ". should be 2.".

(** Both branches strip double quotes: the second one, for single
    quotes, calls [string.strip] with a double quote as the source does. *)
Definition cut_quotation (string0 : string) : result string :=
  let s1 := strip string0 in
  s2 <- (if contains s1 (ascii_of_nat 34) then
           _ <- assert (dq_msg s1) (Nat.eqb (count_char (ascii_of_nat 34) s1) 2) ;;
           _ <- assert (dq ++ " is not at the beginning.") (startswith s1 dq) ;;
           _ <- assert (dq ++ " is not at the end.") (endswith s1 dq) ;;
           Ok (strip_chars dq s1)
         else Ok s1) ;;
  if contains s2 (ascii_of_nat 39) then
    _ <- assert (sq_msg s2) (Nat.eqb (count_char (ascii_of_nat 39) s2) 2) ;;
    _ <- assert "' is not at the beginning." (startswith s2 sq) ;;
    _ <- assert "' is not at the end." (endswith s2 sq) ;;
    Ok (strip_chars dq s2)
  else Ok s2.

(** ** Reading aids for the splitter and the reader *)

(** The lines the splitter keeps, in their order. *)
Definition kept_lines (file : list string) : list string :=
  filter (fun l => negb (ignorable l)) file.

(** A kept line that opens a new chunk. *)
Definition opens_entry (l : string) : bool := startswith (strip l) "@".

(** [sep in s] for a string [sep]. *)
Fixpoint occurs (sep s : string) : bool :=
  String.prefix sep s ||
  match s with
  | EmptyString => false
  | String _ s' => occurs sep s'
  end.

(** The text [format_BibTexEntry_to_str] writes after the entry type. *)
Definition entry_body (e : BibTexEntry) : string :=
  let data_str :=
    join nl (map (fun '(field, value) => field ++ " = " ++ value ++ ",")
                 (data e)) in
  "{" ++ citekey e ++ "," ++ nl ++ data_str ++ nl ++ "}".

(** The splitter's state after a kept line that starts with [@]: every
    chunk but the first starts with [@], and so does the pending chunk
    once a chunk has been emitted. *)
Definition tail_inv (st : list string * list string) : Prop :=
  Forall (fun ch => startswith ch "@" = true) (tl (fst st)) /\
  (fst st <> [] -> exists l r, snd st = l :: r /\ startswith l "@" = true).

(** * Properties *)

(** ** General facts on strings *)

Lemma app_assoc_str (a b c : string) : (a ++ b) ++ c = a ++ (b ++ c).
Proof. induction a as [|x a IH]; simpl; [reflexivity | now rewrite IH]. Qed.

Lemma app_nil_r_str (a : string) : a ++ EmptyString = a.
Proof. induction a as [|x a IH]; simpl; [reflexivity | now rewrite IH]. Qed.

Lemma lstrip_by_app (p : ascii -> bool) (s1 s2 : string) :
  (forall c, mem c s1 = true -> p c = true) ->
  lstrip_by p (s1 ++ s2) = lstrip_by p s2.
Proof.
  induction s1 as [|c s1 IH]; intros H; simpl; [reflexivity|].
  rewrite (H c) by (simpl; now rewrite Ascii.eqb_refl).
  apply IH. intros d Hd. apply H. simpl. now rewrite Hd, orb_true_r.
Qed.

Lemma rstrip_by_app (p : ascii -> bool) (s1 s2 : string) :
  (forall c, mem c s2 = true -> p c = true) ->
  rstrip_by p (s1 ++ s2) = rstrip_by p s1.
Proof.
  intros H. induction s1 as [|c s1 IH]; simpl.
  - induction s2 as [|d s2 IH2]; simpl; [reflexivity|].
    rewrite IH2.
    + now rewrite (H d) by (simpl; now rewrite Ascii.eqb_refl).
    + intros e He. apply H. simpl. now rewrite He, orb_true_r.
  - now rewrite IH.
Qed.

Lemma rstrip_by_keep (p : ascii -> bool) (s : string) :
  (forall pre c, s = pre ++ String c EmptyString -> p c = false) ->
  rstrip_by p s = s.
Proof.
  induction s as [|c s IH]; intros H; simpl; [reflexivity|].
  destruct s as [|d s].
  - now rewrite (H EmptyString c eq_refl).
  - rewrite IH.
    + reflexivity.
    + intros pre e He. apply (H (String c pre)). simpl. now rewrite He.
Qed.

(** ** Facts on the dict model *)

Lemma set_new (d : Dict.t) (k v : string) :
  Dict.get d k = None -> Dict.set d k v = (d ++ [(k, v)])%list.
Proof.
  induction d as [|[k' v'] d IH]; simpl; [reflexivity|].
  destruct (String.eqb k' k); [discriminate|].
  intros H. now rewrite IH.
Qed.

Lemma set_keys (d : Dict.t) (k v w : string) :
  Dict.get d k = Some w -> Dict.keys (Dict.set d k v) = Dict.keys d.
Proof.
  induction d as [|[k' v'] d IH]; simpl; [discriminate|].
  destruct (String.eqb k' k); simpl; [reflexivity|].
  intros H. now rewrite (IH H).
Qed.

Lemma set_get (d : Dict.t) (k v : string) : Dict.get (Dict.set d k v) k = Some v.
Proof.
  induction d as [|[k' v'] d IH]; simpl.
  - now rewrite String.eqb_refl.
  - destruct (String.eqb k' k) eqn:E; simpl; rewrite ?E; [reflexivity | exact IH].
Qed.

Lemma other_than_pair (k k' x : string) :
  other_than k (k', x) = negb (String.eqb k' k).
Proof. reflexivity. Qed.

Lemma set_other (d : Dict.t) (k v : string) :
  filter (other_than k) (Dict.set d k v) = filter (other_than k) d.
Proof.
  induction d as [|[k' v'] d IH]; simpl.
  - now rewrite other_than_pair, String.eqb_refl.
  - destruct (String.eqb k' k) eqn:E; simpl; rewrite !other_than_pair, E;
      simpl; [reflexivity | now rewrite IH].
Qed.

Lemma mem_quotes (n : nat) (c : ascii) : mem c (quotes n) = true -> mem c dq = true.
Proof.
  induction n as [|n IH]; [discriminate|].
  intros H. change (dq ++ quotes n) with (String (ascii_of_nat 34) (quotes n)) in H.
  simpl in H. apply orb_true_iff in H as [H|H].
  - simpl. now rewrite H.
  - exact (IH H).
Qed.

Lemma mem_dq_false (c : ascii) : c <> ascii_of_nat 34 -> mem c dq = false.
Proof. intros H. simpl. apply Ascii.eqb_neq in H. now rewrite H. Qed.

Lemma strip_quote_runs (m : string) (n1 n2 : nat) :
  quote_free_ends m -> strip_chars dq (quotes n1 ++ m ++ quotes n2) = m.
Proof.
  intros [Hfirst Hlast]. unfold strip_chars, strip_by.
  rewrite lstrip_by_app by (intros c Hc; now apply (mem_quotes n1)).
  destruct m as [|c r].
  - change (EmptyString ++ quotes n2) with (quotes n2).
    rewrite <- (app_nil_r_str (quotes n2)).
    rewrite lstrip_by_app by (intros c Hc; now apply (mem_quotes n2)).
    reflexivity.
  - change (String c r ++ quotes n2) with (String c (r ++ quotes n2)).
    cbn [lstrip_by]. rewrite (mem_dq_false c (Hfirst c r eq_refl)).
    change (String c (r ++ quotes n2)) with (String c r ++ quotes n2).
    rewrite rstrip_by_app by (intros d Hd; now apply (mem_quotes n2)).
    apply rstrip_by_keep. intros p d Hd. apply mem_dq_false. exact (Hlast p d Hd).
Qed.

(** ** The note-field transform *)

(** C5: with no note field, [insert_citekey r "P-" "-S"] sets note to
    the quoted text P-, the citekey, -S; with the note holding the quoted
    text [existing text], it sets note to the quoted text [existing text],
    a newline, P-, the citekey, -S. *)
Theorem insert_citekey_creates_or_appends_note (e : BibTexEntry) :
  (Dict.get (data e) "note" = None ->
   Dict.get (data (insert_citekey e "P-" "-S")) "note"
   = Some (dq ++ "P-" ++ citekey e ++ "-S" ++ dq)) /\
  (Dict.get (data e) "note" = Some (dq ++ "existing text" ++ dq) ->
   Dict.get (data (insert_citekey e "P-" "-S")) "note"
   = Some (dq ++ "existing text" ++ nl ++ "P-" ++ citekey e ++ "-S" ++ dq)).
Proof.
  unfold insert_citekey, insert_field. split; intros H; rewrite H; simpl data;
    rewrite set_get; [reflexivity|].
  replace (strip_chars dq (dq ++ "existing text" ++ dq)) with "existing text"
    by reflexivity.
  now rewrite !app_assoc_str.
Qed.

(** C6 (as the code does it): the append path removes every leading and
    every trailing double quote of the stored value (Python's
    [str.strip] with a quote argument), not one on each side: a value
    made of [n1] quotes, a text [m] that neither starts nor ends with a
    quote, and [n2] quotes becomes [m] before the annotation line is
    appended. *)
Theorem insert_citekey_strips_quote_runs (e : BibTexEntry)
  (prefix suffix m : string) (n1 n2 : nat) :
  quote_free_ends m ->
  Dict.get (data e) insert_field = Some (quotes n1 ++ m ++ quotes n2) ->
  Dict.get (data (insert_citekey e prefix suffix)) insert_field
  = Some (dq ++ m ++ nl ++ prefix ++ citekey e ++ suffix ++ dq).
Proof.
  intros Hm H. unfold insert_citekey. rewrite H. simpl data.
  rewrite set_get, strip_quote_runs by exact Hm.
  now rewrite !app_assoc_str.
Qed.

(** C6 fails as stated: a stored note of two quotes, x, two quotes loses
    both quotes on each side, where the claim keeps the inner ones. *)
Lemma insert_citekey_double_quotes_cex :
  Dict.get (data (insert_citekey
                    (mkEntry "k" "misc" [("note", dq ++ dq ++ "x" ++ dq ++ dq)])
                    EmptyString EmptyString)) "note"
  <> Some (dq ++ (dq ++ "x" ++ dq) ++ nl ++ "k" ++ dq).
Proof. vm_compute. intros H. discriminate H. Qed.

(** C7: the transform leaves the citekey, the type and every other field
    (value and relative order) as they were; an absent note field is
    appended at the end, a present one keeps its place. *)
Theorem insert_citekey_frame (e : BibTexEntry) (prefix suffix : string) :
  citekey (insert_citekey e prefix suffix) = citekey e /\
  entry_type (insert_citekey e prefix suffix) = entry_type e /\
  filter (other_than insert_field) (data (insert_citekey e prefix suffix))
  = filter (other_than insert_field) (data e) /\
  (Dict.get (data e) insert_field = None ->
   exists v, data (insert_citekey e prefix suffix)
             = (data e ++ [(insert_field, v)])%list) /\
  (forall w, Dict.get (data e) insert_field = Some w ->
   Dict.keys (data (insert_citekey e prefix suffix)) = Dict.keys (data e)).
Proof.
  unfold insert_citekey.
  destruct (Dict.get (data e) insert_field) as [w|] eqn:G; simpl;
    (split; [reflexivity|]); (split; [reflexivity|]);
    (split; [apply set_other|]); split.
  - discriminate.
  - intros w' _. now apply set_keys with (w := w).
  - intros _. eexists. now apply set_new.
  - discriminate.
Qed.

(** ** The splitter *)

Lemma contents_step_ignorable (st : list string * list string) (x : string) :
  ignorable x = true -> contents_step st x = st.
Proof.
  unfold ignorable, contents_step. destruct st as [contents tmp_lines].
  destruct (startswith (strip x) "%"); simpl; intros H; [reflexivity|].
  now rewrite H.
Qed.

Lemma fold_contents_inserted (xs ys : list string) :
  inserted_ignorable xs ys ->
  forall st, fold_left contents_step ys st = fold_left contents_step xs st.
Proof.
  induction 1 as [|x xs ys _ IH|x xs ys Hx _ IH]; intros st; simpl.
  - reflexivity.
  - apply IH.
  - rewrite contents_step_ignorable by exact Hx. apply IH.
Qed.

Lemma fold_contents_filter (ys : list string) (st : list string * list string) :
  fold_left contents_step ys st
  = fold_left contents_step (filter (fun l => negb (ignorable l)) ys) st.
Proof.
  revert st. induction ys as [|y ys IH]; intros st; simpl; [reflexivity|].
  destruct (ignorable y) eqn:Hy; simpl.
  - rewrite contents_step_ignorable by exact Hy. apply IH.
  - apply IH.
Qed.

(** C8: inserting blank or comment lines anywhere in the input leaves
    the splitter's chunks unchanged; equivalently, the splitter gives
    the same chunks as on the input with those lines removed. *)
Theorem get_BibTex_file_contents_ignores_comments (xs ys : list string) :
  inserted_ignorable xs ys ->
  get_BibTex_file_contents xs = get_BibTex_file_contents ys /\
  get_BibTex_file_contents ys
  = get_BibTex_file_contents (filter (fun l => negb (ignorable l)) ys).
Proof.
  intros H. unfold get_BibTex_file_contents. split.
  - now rewrite (fold_contents_inserted xs ys H).
  - now rewrite fold_contents_filter.
Qed.

(** C9: an input made only of blank and comment lines gives exactly one
    chunk, the empty string (the final flush is unconditional). *)
Theorem get_BibTex_file_contents_no_entry (file : list string) :
  forallb ignorable file = true -> get_BibTex_file_contents file = [EmptyString].
Proof.
  intros H. unfold get_BibTex_file_contents.
  assert (E : forall st, fold_left contents_step file st = st).
  { induction file as [|x file IH]; intros st; simpl; [reflexivity|].
    simpl in H. apply andb_true_iff in H as [Hx Hf].
    rewrite contents_step_ignorable by exact Hx. now apply IH. }
  now rewrite E.
Qed.

(** ** Reading a file *)

Lemma nodup_length_le (l : list string) : length (nodup string_dec l) <= length l.
Proof.
  induction l as [|x l IH]; simpl; [lia|].
  destruct (in_dec string_dec x l); simpl; lia.
Qed.

Lemma nodup_length_NoDup (l : list string) :
  length (nodup string_dec l) = length l -> NoDup l.
Proof.
  induction l as [|x l IH]; simpl; intros H; [constructor|].
  destruct (in_dec string_dec x l) as [Hin|Hnin].
  - pose proof (nodup_length_le l). lia.
  - simpl in H. constructor; [exact Hnin | apply IH; lia].
Qed.

Lemma map_result_err {A B} (f : A -> result B) (l : list A) (e : error) :
  map_result f l = Err e -> exists x, In x l /\ f x = Err e.
Proof.
  induction l as [|x l IH]; simpl; [discriminate|].
  destruct (f x) as [y|e'] eqn:Fx; simpl.
  - destruct (map_result f l) as [ys|e'']; simpl; [discriminate|].
    intros H. injection H as <-. destruct (IH eq_refl) as [z [Hz Fz]].
    exists z. auto.
  - intros H. injection H as <-. exists x. auto.
Qed.

Lemma decode_error_not_uniqueness (c : string) (e : error) :
  convert_str_to_BibTexEntry c = Err e -> e <> AssertionError uniqueness_msg.
Proof.
  unfold convert_str_to_BibTexEntry, decode_header, bind, assert, index1.
  repeat match goal with
         | |- context [if ?b then _ else _] => destruct b
         | |- context [match ?x with Some _ => _ | None => _ end] => destruct x
         end;
    intros H; (discriminate H || (injection H as <-; discriminate)).
Qed.

(** C4: when every chunk decodes and two records share a citekey, the
    read fails with the uniqueness assertion and [main] fails without
    producing an output file; conversely the uniqueness error only
    arises once every chunk has been decoded, so it is decided after the
    whole decoding pass. *)
Theorem read_BibTex_file_uniqueness (file : list string) :
  (forall entries,
     map_result convert_str_to_BibTexEntry (get_BibTex_file_contents file)
     = Ok entries ->
     ~ NoDup (map citekey entries) ->
     read_BibTex_file file = Err (AssertionError uniqueness_msg) /\
     forall isfile output_file_path prefix suffix,
       exists e, main isfile file output_file_path prefix suffix = Err e) /\
  (read_BibTex_file file = Err (AssertionError uniqueness_msg) ->
   exists entries,
     map_result convert_str_to_BibTexEntry (get_BibTex_file_contents file)
     = Ok entries /\ ~ NoDup (map citekey entries)).
Proof.
  split.
  - intros entries M Hdup.
    assert (R : read_BibTex_file file = Err (AssertionError uniqueness_msg)).
    { unfold read_BibTex_file. rewrite M. simpl.
      destruct (Nat.eqb (length entries)
                  (length (nodup string_dec (map citekey entries)))) eqn:E;
        [|reflexivity].
      exfalso. apply Hdup. apply nodup_length_NoDup.
      apply Nat.eqb_eq in E. rewrite length_map. lia. }
    split; [exact R|].
    intros isfile out prefix suffix. unfold main.
    destruct (String.eqb out EmptyString); [eexists; reflexivity|].
    destruct (isfile out); [eexists; reflexivity|].
    rewrite R. eexists. reflexivity.
  - unfold read_BibTex_file.
    destruct (map_result convert_str_to_BibTexEntry
                (get_BibTex_file_contents file)) as [entries|e] eqn:M; simpl.
    + intros H. exists entries. split; [reflexivity|].
      intros Hnd. apply (nodup_fixed_point string_dec) in Hnd. rewrite Hnd in H.
      rewrite length_map, Nat.eqb_refl in H. discriminate H.
    + intros H. injection H as ->.
      destruct (map_result_err _ _ _ M) as [c [_ Hc]].
      exfalso. exact (decode_error_not_uniqueness c _ Hc eq_refl).
Qed.

Lemma read_BibTex_file_uniqueness_witness :
  map_result convert_str_to_BibTexEntry
    (get_BibTex_file_contents ["@misc{k,"; "title = a"; "}"; "@misc{k,"; "}"])
  = Ok [mkEntry "k" "misc" [("title", " a")]; mkEntry "k" "misc" []] /\
  ~ NoDup (map citekey [mkEntry "k" "misc" [("title", " a")]; mkEntry "k" "misc" []]) /\
  read_BibTex_file ["@misc{k,"; "title = a"; "}"; "@misc{k,"; "}"]
  = Err (AssertionError uniqueness_msg).
Proof.
  assert (M : map_result convert_str_to_BibTexEntry
    (get_BibTex_file_contents ["@misc{k,"; "title = a"; "}"; "@misc{k,"; "}"])
    = Ok [mkEntry "k" "misc" [("title", " a")]; mkEntry "k" "misc" []])
    by reflexivity.
  assert (D : ~ NoDup (map citekey [mkEntry "k" "misc" [("title", " a")];
                                   mkEntry "k" "misc" []])).
  { simpl. intros H. inversion H as [|x l Hx _]. apply Hx. left. reflexivity. }
  split; [exact M|]. split; [exact D|].
  exact (proj1 (proj1 (read_BibTex_file_uniqueness _) _ M D)).
Defined.

(** ** Splitting on a comma *)

Lemma prefix_comma (c : ascii) (s : string) :
  String.prefix "," (String c s) = Ascii.eqb c ",".
Proof.
  change (String.prefix "," (String c s))
    with (if ascii_dec "," c then String.prefix EmptyString s else false).
  destruct (ascii_dec "," c) as [<-|Hne].
  { rewrite Ascii.eqb_refl. now destruct s. }
  symmetry. apply Ascii.eqb_neq. congruence.
Qed.

Lemma split_go_comma_step (c : ascii) (s cur : string) :
  split_go "," (String c s) 0 cur
  = if Ascii.eqb c ","%char then cur :: split_go "," s 0 EmptyString
    else split_go "," s 0 (cur ++ String c EmptyString).
Proof.
  change (split_go "," (String c s) 0 cur)
    with (if String.prefix "," (String c s)
          then cur :: split_go "," s 0 EmptyString
          else split_go "," s 0 (cur ++ String c EmptyString)).
  now rewrite prefix_comma.
Qed.

Lemma split_go_comma_cur (s cur : string) :
  split_go "," s 0 cur = prepend_first cur (split_go "," s 0 EmptyString).
Proof.
  revert cur. induction s as [|c s IH]; intros cur.
  - change ([cur] = [cur ++ EmptyString]). f_equal. symmetry. apply app_nil_r_str.
  - rewrite !split_go_comma_step. destruct (Ascii.eqb c ","%char).
    + unfold prepend_first. f_equal. symmetry. apply app_nil_r_str.
    + rewrite IH, (IH (EmptyString ++ String c EmptyString)).
      destruct (split_go "," s 0 EmptyString) as [|p ps]; [reflexivity|].
      unfold prepend_first. f_equal. apply app_assoc_str.
Qed.

Lemma split_comma_cons (c : ascii) (s : string) :
  split (String c s) ","
  = if Ascii.eqb c ","%char then EmptyString :: split s ","
    else prepend_first (String c EmptyString) (split s ",").
Proof.
  unfold split. rewrite split_go_comma_step.
  destruct (Ascii.eqb c ","%char); [reflexivity|].
  now rewrite (split_go_comma_cur s (EmptyString ++ String c EmptyString)).
Qed.

Lemma split_comma_nonempty (s : string) : split s "," <> [].
Proof.
  induction s as [|c s IH]; [discriminate|].
  rewrite split_comma_cons. destruct (Ascii.eqb c ","); [discriminate|].
  destruct (split s ","); [contradiction | discriminate].
Qed.

Lemma split_last_comma (s : string) :
  split s ","
  = match Stitch.last_comma_split s with
    | None => [s]
    | Some (b, a) => (split b "," ++ [a])%list
    end.
Proof.
  induction s as [|c s IH]; [reflexivity|].
  rewrite split_comma_cons. simpl.
  destruct (Stitch.last_comma_split s) as [[b a]|] eqn:L.
  - rewrite IH, split_comma_cons.
    destruct (Ascii.eqb c ","); [reflexivity|].
    pose proof (split_comma_nonempty b) as Hb.
    destruct (split b ","); [contradiction | reflexivity].
  - rewrite IH. destruct (Ascii.eqb c ","); reflexivity.
Qed.

Lemma join_cons_char (c : ascii) (p : string) (ps : list string) :
  join "," (String c p :: ps) = String c (join "," (p :: ps)).
Proof. destruct ps; reflexivity. Qed.

Lemma join_split_comma (s : string) : join "," (split s ",") = s.
Proof.
  induction s as [|c s IH]; [reflexivity|].
  rewrite split_comma_cons.
  destruct (Ascii.eqb c ",") eqn:E.
  - apply Ascii.eqb_eq in E. subst c.
    pose proof (split_comma_nonempty s) as Hs.
    destruct (split s ",") as [|p ps] eqn:S; [contradiction|].
    change (join "," (EmptyString :: p :: ps))
      with (EmptyString ++ "," ++ join "," (p :: ps)).
    now rewrite IH.
  - pose proof (split_comma_nonempty s) as Hs.
    destruct (split s ",") as [|p ps] eqn:S; [contradiction|].
    unfold prepend_first. change (String c EmptyString ++ p) with (String c p).
    now rewrite join_cons_char, IH.
Qed.

(** What the decoder computes from a middle token is the cut at its last
    comma of the trimmed token. *)
Lemma middle_of_split (t : string) :
  (join "," (drop_last (split (strip t) ",")), last1 (split (strip t) ","))
  = Stitch.middle t.
Proof.
  unfold Stitch.middle, Stitch.middle_words, drop_last, last1.
  rewrite split_last_comma.
  destruct (Stitch.last_comma_split (strip t)) as [[b a]|]; simpl.
  - now rewrite removelast_last, last_last, join_split_comma.
  - reflexivity.
Qed.

(** ** The loop over the [=]-tokens *)

Lemma fold_meta_mid (mids : list string) :
  forall k n field d lt,
    1 <= k -> n = k + length mids + 1 ->
    snd (fold_left (meta_step n) (combine (seq k (length mids + 1)) (mids ++ [lt]))
           (field, d))
    = fold_left set_pair (Stitch.stitch_go Stitch.middle field mids lt) d.
Proof.
  induction mids as [|m ms IH]; intros k n field d lt Hk Hn.
  - change (length (@nil string) + 1) with 1.
    cbn [seq combine app fold_left Stitch.stitch_go].
    unfold meta_step.
    replace (Nat.eqb k 0) with false by (symmetry; apply Nat.eqb_neq; lia).
    replace (Nat.eqb k (n - 1)) with true
      by (symmetry; apply Nat.eqb_eq; simpl in Hn; lia).
    reflexivity.
  - replace (length (m :: ms) + 1) with (S (length ms + 1)) by (simpl; lia).
    cbn [seq combine app fold_left Stitch.stitch_go].
    rewrite <- (middle_of_split m).
    unfold meta_step at 2.
    replace (Nat.eqb k 0) with false by (symmetry; apply Nat.eqb_neq; lia).
    replace (Nat.eqb k (n - 1)) with false
      by (symmetry; apply Nat.eqb_neq; simpl in Hn; lia).
    cbn [fold_left]. apply IH; simpl in Hn; lia.
Qed.

Lemma collect_data_stitch (tokens : list string) :
  collect_data tokens = Stitch.dict_of_pairs (Stitch.stitch_pairs Stitch.middle tokens).
Proof.
  destruct tokens as [|t0 [|t1 rest]]; [reflexivity|reflexivity|].
  set (rest0 := t1 :: rest).
  assert (Hr : rest0 = (removelast rest0 ++ [last rest0 EmptyString])%list)
    by (apply app_removelast_last; discriminate).
  change (Stitch.stitch_pairs Stitch.middle (t0 :: rest0))
    with (Stitch.stitch_go Stitch.middle (strip t0) (removelast rest0)
            (last rest0 EmptyString)).
  remember (removelast rest0) as mids. remember (last rest0 EmptyString) as lt.
  clearbody rest0. subst rest0.
  unfold collect_data, enumerate, Stitch.dict_of_pairs.
  cbn [length]. rewrite length_app. cbn [length].
  cbn [seq combine fold_left].
  replace (meta_step _ (EmptyString, []) (0, t0))
    with (strip t0, @nil (string * string)) by reflexivity.
  apply fold_meta_mid; lia.
Qed.

(** ** Facts on filling a dict from assignments *)

Lemma set_get_other (d : Dict.t) (k k' v : string) :
  k <> k' -> Dict.get (Dict.set d k v) k' = Dict.get d k'.
Proof.
  intros Hne. induction d as [|[k0 v0] d IH]; simpl.
  - apply String.eqb_neq in Hne. now rewrite Hne.
  - destruct (String.eqb k0 k) eqn:E; simpl.
    + apply String.eqb_eq in E. subst k0.
      apply String.eqb_neq in Hne. now rewrite Hne.
    + destruct (String.eqb k0 k'); [reflexivity | exact IH].
Qed.

Lemma in_keys_set (d : Dict.t) (k v x : string) :
  In x (Dict.keys (Dict.set d k v)) -> x = k \/ In x (Dict.keys d).
Proof.
  induction d as [|[k0 v0] d IH]; simpl.
  - intros [H|[]]. left. now symmetry.
  - destruct (String.eqb k0 k); simpl; intros [H|H]; auto.
    destruct (IH H); auto.
Qed.

Lemma nodup_keys_set (d : Dict.t) (k v : string) :
  NoDup (Dict.keys d) -> NoDup (Dict.keys (Dict.set d k v)).
Proof.
  induction d as [|[k0 v0] d IH]; simpl; intros H.
  - constructor; [intros [] | constructor].
  - inversion H as [|x l Hx Hl]; subst.
    destruct (String.eqb k0 k) eqn:E; simpl.
    + constructor; assumption.
    + constructor; [|now apply IH].
      intros Hin. destruct (in_keys_set d k v k0 Hin) as [->|Hin'].
      * now rewrite String.eqb_refl in E.
      * contradiction.
Qed.

Lemma fold_set_pair_nodup (ps : list (string * string)) (d : Dict.t) :
  NoDup (Dict.keys d) -> NoDup (Dict.keys (fold_left set_pair ps d)).
Proof.
  revert d. induction ps as [|kv ps IH]; intros d H; simpl; [exact H|].
  apply IH. now apply nodup_keys_set.
Qed.

Lemma fold_set_pair_get (ps : list (string * string)) (d : Dict.t) (k : string) :
  Dict.get (fold_left set_pair ps d) k
  = match Stitch.last_value ps k with
    | Some w => Some w
    | None => Dict.get d k
    end.
Proof.
  revert d. induction ps as [|[k' v] ps IH]; intros d; simpl; [reflexivity|].
  rewrite IH. destruct (Stitch.last_value ps k); [reflexivity|].
  unfold set_pair. simpl.
  destruct (String.eqb k' k) eqn:E.
  - apply String.eqb_eq in E. subst k'. apply set_get.
  - apply set_get_other. now apply String.eqb_neq.
Qed.

(** ** The decoder *)

(** C3 (as the code does it): when the header of a chunk decodes, the
    fields map of the record is the token stitching of its field-list
    text where each middle token is first trimmed of the white space
    around it and then cut at its last comma (a middle token without a
    comma gives an empty value and is the next field name), the
    assignments being stored in a dict in their order. *)
Theorem convert_fields_stitched (c ty key meta : string) :
  decode_header c = Ok (ty, key, meta) ->
  convert_str_to_BibTexEntry c = Ok (mkEntry key ty (Stitch.fields meta)).
Proof.
  intros H. unfold convert_str_to_BibTexEntry. rewrite H. simpl.
  unfold Stitch.fields. now rewrite collect_data_stitch.
Qed.

(** C3 fails as worded: cutting the middle token [ x,year ] at its last
    comma as it stands gives the value [ x] and the field name [year ]
    with a trailing blank, where the decoder, which trims the token
    first, stores [x] under [year]. *)
Lemma convert_fields_words_cex :
  decode_header "@misc{k,title = x,year = 2020}"
  = Ok ("misc", "k", "title = x,year = 2020") /\
  convert_str_to_BibTexEntry "@misc{k,title = x,year = 2020}"
  = Ok (mkEntry "k" "misc" [("title", "x"); ("year", " 2020")]) /\
  Stitch.fields_words "title = x,year = 2020"
  = [("title", " x"); ("year ", " 2020")] /\
  [("title", "x"); ("year", " 2020")]
  <> Stitch.fields_words "title = x,year = 2020".
Proof.
  split; [reflexivity|]. split; [reflexivity|]. split; [reflexivity|].
  vm_compute. intros H. discriminate H.
Qed.

(** C10: repeated field names raise no error: once the header of a
    chunk decodes, the decoder returns a record whose fields map holds
    each name once, bound to the value of the last assignment to that
    name in the field list; earlier values are overwritten. *)
Theorem convert_repeated_fields_last_wins (c ty key meta : string) :
  decode_header c = Ok (ty, key, meta) ->
  exists r, convert_str_to_BibTexEntry c = Ok r /\
    NoDup (Dict.keys (data r)) /\
    forall k, Dict.get (data r) k
              = Stitch.last_value
                  (Stitch.stitch_pairs Stitch.middle (split meta "=")) k.
Proof.
  intros H. unfold convert_str_to_BibTexEntry. rewrite H. simpl.
  eexists. split; [reflexivity|]. simpl.
  rewrite collect_data_stitch. unfold Stitch.dict_of_pairs.
  fold set_pair. split.
  - apply fold_set_pair_nodup. constructor.
  - intros k. rewrite fold_set_pair_get.
    destruct (Stitch.last_value _ k); reflexivity.
Qed.

(** C1 fails on well-formed record text: the decoder takes the text
    after the entry type as the piece between the first two occurrences
    of the type ([entry[1:].split(entry_type)[1]]), so a type that occurs
    again in the body (article in a title) makes the decoder raise; and
    a last field written with its trailing comma keeps the comma in its
    value, which the encoder writes back as [x,,]. *)
Theorem roundtrip_fails_on_wellformed_text :
  convert_str_to_BibTexEntry
    "@article{Doe2020,title = A review article,year = 2020}"
  = Err (AssertionError "entry_wo_entry_type.endswith('}')") /\
  convert_str_to_BibTexEntry "@misc{k,title = x,}"
  = Ok (mkEntry "k" "misc" [("title", " x,")]) /\
  format_BibTexEntry_to_str (mkEntry "k" "misc" [("title", " x,")])
  = "@misc{k," ++ nl ++ "title =  x,," ++ nl ++ "}".
Proof. split; [reflexivity|]. split; reflexivity. Qed.

(** C2 fails both ways: a chunk that meets the four preconditions as
    worded but whose type occurs again in the body raises, and a chunk
    whose text after the type does not end with a closing brace decodes,
    because the decoder only checks the piece up to the next occurrence
    of the type. *)
Theorem decode_preconditions_diverge :
  decode_preconditions "@misc{misc2020,title = x}" = true /\
  convert_str_to_BibTexEntry "@misc{misc2020,title = x}"
  = Err (AssertionError "entry_wo_entry_type.endswith('}')") /\
  decode_preconditions "@a{}a" = false /\
  convert_str_to_BibTexEntry "@a{}a" = Ok (mkEntry EmptyString "a" []).
Proof. repeat split; reflexivity. Qed.

(** ** Witnesses *)

Lemma convert_fields_stitched_witness :
  decode_header "@misc{k,title = x, y,year = 2020}"
  = Ok ("misc", "k", "title = x, y,year = 2020") /\
  convert_str_to_BibTexEntry "@misc{k,title = x, y,year = 2020}"
  = Ok (mkEntry "k" "misc" (Stitch.fields "title = x, y,year = 2020")).
Proof.
  assert (H : decode_header "@misc{k,title = x, y,year = 2020}"
              = Ok ("misc", "k", "title = x, y,year = 2020")) by reflexivity.
  split; [exact H | exact (convert_fields_stitched _ _ _ _ H)].
Defined.

Lemma convert_repeated_fields_last_wins_witness :
  decode_header "@misc{k,title = a,year = 1,title = b}"
  = Ok ("misc", "k", "title = a,year = 1,title = b") /\
  exists r, convert_str_to_BibTexEntry "@misc{k,title = a,year = 1,title = b}"
            = Ok r /\ NoDup (Dict.keys (data r)) /\
    forall k, Dict.get (data r) k
              = Stitch.last_value (Stitch.stitch_pairs Stitch.middle
                  (split "title = a,year = 1,title = b" "=")) k.
Proof.
  assert (H : decode_header "@misc{k,title = a,year = 1,title = b}"
              = Ok ("misc", "k", "title = a,year = 1,title = b")) by reflexivity.
  split; [exact H | exact (convert_repeated_fields_last_wins _ _ _ _ H)].
Defined.

Lemma insert_citekey_creates_or_appends_note_witness :
  Dict.get (data (mkEntry "Doe2020" "ARTICLE" [("title", "x")])) "note" = None /\
  Dict.get (data (insert_citekey (mkEntry "Doe2020" "ARTICLE" [("title", "x")])
                    "P-" "-S")) "note"
  = Some (dq ++ "P-" ++ "Doe2020" ++ "-S" ++ dq) /\
  Dict.get (data (mkEntry "Doe2020" "ARTICLE"
                    [("note", dq ++ "existing text" ++ dq)])) "note"
  = Some (dq ++ "existing text" ++ dq) /\
  Dict.get (data (insert_citekey (mkEntry "Doe2020" "ARTICLE"
                    [("note", dq ++ "existing text" ++ dq)]) "P-" "-S")) "note"
  = Some (dq ++ "existing text" ++ nl ++ "P-" ++ "Doe2020" ++ "-S" ++ dq).
Proof.
  split; [reflexivity|].
  split; [apply (proj1 (insert_citekey_creates_or_appends_note
                          (mkEntry "Doe2020" "ARTICLE" [("title", "x")])));
          reflexivity|].
  split; [reflexivity|].
  apply (proj2 (insert_citekey_creates_or_appends_note
                  (mkEntry "Doe2020" "ARTICLE" [("note", dq ++ "existing text" ++ dq)]))).
  reflexivity.
Defined.

Lemma insert_citekey_strips_quote_runs_witness :
  quote_free_ends "x" /\
  Dict.get (data (mkEntry "k" "misc" [("note", quotes 2 ++ "x" ++ quotes 3)]))
    insert_field = Some (quotes 2 ++ "x" ++ quotes 3) /\
  Dict.get (data (insert_citekey
                    (mkEntry "k" "misc" [("note", quotes 2 ++ "x" ++ quotes 3)])
                    "P-" "-S")) insert_field
  = Some (dq ++ "x" ++ nl ++ "P-" ++ "k" ++ "-S" ++ dq).
Proof.
  assert (Q : quote_free_ends "x").
  { split.
    - intros c r H. injection H as Hc _. subst c.
      intros E. vm_compute in E. discriminate E.
    - intros p c H. destruct p as [|d p]; simpl in H.
      + injection H as Hc. subst c. intros E. vm_compute in E. discriminate E.
      + injection H as _ H'. destruct p; discriminate H'. }
  assert (G : Dict.get (data (mkEntry "k" "misc"
                 [("note", quotes 2 ++ "x" ++ quotes 3)])) insert_field
              = Some (quotes 2 ++ "x" ++ quotes 3)) by reflexivity.
  split; [exact Q|]. split; [exact G|].
  exact (insert_citekey_strips_quote_runs _ "P-" "-S" "x" 2 3 Q G).
Defined.

Lemma insert_citekey_frame_witness :
  Dict.get (data (mkEntry "Doe2020" "ARTICLE" [("title", "x"); ("year", "2020")]))
    insert_field = None /\
  (exists v, data (insert_citekey
                     (mkEntry "Doe2020" "ARTICLE" [("title", "x"); ("year", "2020")])
                     EmptyString EmptyString)
             = ([("title", "x"); ("year", "2020")] ++ [(insert_field, v)])%list) /\
  Dict.get (data (mkEntry "Doe2020" "ARTICLE" [("note", "n"); ("year", "2020")]))
    insert_field = Some "n" /\
  Dict.keys (data (insert_citekey
                     (mkEntry "Doe2020" "ARTICLE" [("note", "n"); ("year", "2020")])
                     EmptyString EmptyString))
  = Dict.keys [("note", "n"); ("year", "2020")].
Proof.
  split; [reflexivity|].
  split; [exact (proj1 (proj2 (proj2 (proj2 (insert_citekey_frame
            (mkEntry "Doe2020" "ARTICLE" [("title", "x"); ("year", "2020")])
            EmptyString EmptyString)))) eq_refl)|].
  split; [reflexivity|].
  exact (proj2 (proj2 (proj2 (proj2 (insert_citekey_frame
            (mkEntry "Doe2020" "ARTICLE" [("note", "n"); ("year", "2020")])
            EmptyString EmptyString)))) "n" eq_refl).
Defined.

Lemma get_BibTex_file_contents_ignores_comments_witness :
  inserted_ignorable ["@a{k,"; "x = 1"; "}"; "@b{j,"; "}"]
    ["@a{k,"; "x = 1"; "}"; "% comment"; "   "; "@b{j,"; "}"] /\
  get_BibTex_file_contents ["@a{k,"; "x = 1"; "}"; "@b{j,"; "}"]
  = get_BibTex_file_contents ["@a{k,"; "x = 1"; "}"; "% comment"; "   "; "@b{j,"; "}"] /\
  get_BibTex_file_contents ["@a{k,"; "x = 1"; "}"; "% comment"; "   "; "@b{j,"; "}"]
  = get_BibTex_file_contents
      (filter (fun l => negb (ignorable l))
         ["@a{k,"; "x = 1"; "}"; "% comment"; "   "; "@b{j,"; "}"]).
Proof.
  assert (H : inserted_ignorable ["@a{k,"; "x = 1"; "}"; "@b{j,"; "}"]
                ["@a{k,"; "x = 1"; "}"; "% comment"; "   "; "@b{j,"; "}"]).
  { do 3 apply ii_keep.
    apply ii_add; [reflexivity|]. apply ii_add; [reflexivity|].
    do 2 apply ii_keep. apply ii_nil. }
  split; [exact H | exact (get_BibTex_file_contents_ignores_comments _ _ H)].
Defined.

Lemma get_BibTex_file_contents_no_entry_witness :
  forallb ignorable ["% only a comment"; "  "; "%"] = true /\
  get_BibTex_file_contents ["% only a comment"; "  "; "%"] = [EmptyString].
Proof.
  assert (H : forallb ignorable ["% only a comment"; "  "; "%"] = true)
    by reflexivity.
  split; [exact H | exact (get_BibTex_file_contents_no_entry _ H)].
Defined.

(** ** [cut_quotation] *)

Lemma count_app (c : ascii) (a b : string) :
  count_char c (a ++ b) = count_char c a + count_char c b.
Proof. induction a as [|d a IH]; simpl; [reflexivity|]. rewrite IH. lia. Qed.

Lemma mem_app (c : ascii) (a b : string) : mem c (a ++ b) = mem c a || mem c b.
Proof. induction a as [|d a IH]; simpl; [reflexivity|]. now rewrite IH, orb_assoc. Qed.

Lemma mem_count (c : ascii) (s : string) :
  mem c s = negb (Nat.eqb (count_char c s) 0).
Proof.
  induction s as [|d s IH]; simpl; [reflexivity|].
  destruct (Ascii.eqb c d); simpl; [reflexivity | exact IH].
Qed.

Lemma eqb_false_of_pred (p : ascii -> bool) (c d : ascii) :
  p c = false -> p d = true -> Ascii.eqb c d = false.
Proof.
  intros Hc Hd. destruct (Ascii.eqb c d) eqn:E; [|reflexivity].
  apply Ascii.eqb_eq in E. subst d. congruence.
Qed.

Lemma count_lstrip (p : ascii -> bool) (c : ascii) (s : string) :
  p c = false -> count_char c (lstrip_by p s) = count_char c s.
Proof.
  intros Hc. induction s as [|d s IH]; simpl; [reflexivity|].
  destruct (p d) eqn:Hd; simpl; [|reflexivity].
  now rewrite IH, (eqb_false_of_pred p c d Hc Hd).
Qed.

Lemma count_rstrip (p : ascii -> bool) (c : ascii) (s : string) :
  p c = false -> count_char c (rstrip_by p s) = count_char c s.
Proof.
  intros Hc. induction s as [|d s IH]; simpl; [reflexivity|].
  destruct (rstrip_by p s) as [|e r] eqn:R.
  - simpl in IH. rewrite <- IH.
    destruct (p d) eqn:Hd; simpl.
    + now rewrite (eqb_false_of_pred p c d Hc Hd).
    + lia.
  - simpl. simpl in IH. now rewrite IH.
Qed.

Lemma last_char_app (s pre : string) (a c : ascii) :
  s ++ String a EmptyString = pre ++ String c EmptyString -> a = c.
Proof.
  revert pre. induction s as [|b s IH]; intros pre H; simpl in H.
  - destruct pre as [|d pre]; simpl in H.
    + now injection H.
    + injection H as _ H'. destruct pre; discriminate H'.
  - destruct pre as [|d pre]; simpl in H.
    + injection H as _ H'. destruct s; discriminate H'.
    + injection H as _ H'. exact (IH pre H').
Qed.

Lemma startswith_app (p s : string) : startswith (p ++ s) p = true.
Proof.
  unfold startswith. induction p as [|a p IH]; simpl.
  - destruct s; reflexivity.
  - destruct (ascii_dec a a); [exact IH | contradiction].
Qed.

Lemma substring_app_len (s t : string) (n : nat) :
  substring (String.length s) n (s ++ t) = substring 0 n t.
Proof. induction s as [|a s IH]; simpl; [reflexivity | exact IH]. Qed.

Lemma substring_full (t : string) : substring 0 (String.length t) t = t.
Proof. induction t as [|a t IH]; simpl; [reflexivity | now rewrite IH]. Qed.

Lemma length_app_str (s t : string) :
  String.length (s ++ t) = String.length s + String.length t.
Proof. induction s as [|a s IH]; simpl; [reflexivity | now rewrite IH]. Qed.

Lemma endswith_app (s p : string) : endswith (s ++ p) p = true.
Proof.
  unfold endswith. rewrite length_app_str.
  replace (String.length s + String.length p - String.length p)
    with (String.length s) by lia.
  rewrite substring_app_len, substring_full, String.eqb_refl.
  rewrite andb_true_r. apply Nat.leb_le. lia.
Qed.

Lemma strip_keep (p : ascii -> bool) (a b : ascii) (m : string) :
  p a = false -> p b = false ->
  strip_by p (String a (m ++ String b EmptyString))
  = String a (m ++ String b EmptyString).
Proof.
  intros Ha Hb. unfold strip_by. simpl. rewrite Ha.
  apply rstrip_by_keep. intros pre c H.
  change (String a (m ++ String b EmptyString))
    with ((String a m) ++ String b EmptyString) in H.
  apply last_char_app in H. now subst c.
Qed.

Lemma quote_free_ends_of_mem (m : string) :
  mem (ascii_of_nat 34) m = false -> quote_free_ends m.
Proof.
  intros H. split.
  - intros c r -> ->. vm_compute in H. discriminate H.
  - intros p c -> ->. rewrite mem_app in H. apply orb_false_iff in H as [_ H].
    vm_compute in H. discriminate H.
Qed.

Lemma mem_dq_head (x : string) : mem (ascii_of_nat 34) (dq ++ x) = true.
Proof.
  change (dq ++ x) with (String (ascii_of_nat 34) x). cbn [mem].
  now rewrite Ascii.eqb_refl.
Qed.

Lemma count_zero_of_mem (c : ascii) (m : string) :
  mem c m = false -> count_char c m = 0.
Proof.
  rewrite mem_count. destruct (Nat.eqb (count_char c m) 0) eqn:E; simpl.
  - intros _. now apply Nat.eqb_eq.
  - discriminate.
Qed.

Lemma strip_double_quoted (ws1 ws2 m : string) :
  (forall c, mem c ws1 = true -> isspace c = true) ->
  (forall c, mem c ws2 = true -> isspace c = true) ->
  strip (ws1 ++ dq ++ m ++ dq ++ ws2) = dq ++ m ++ dq.
Proof.
  intros H1 H2. unfold strip, strip_by. rewrite lstrip_by_app by exact H1.
  replace (dq ++ m ++ dq ++ ws2) with ((dq ++ m ++ dq) ++ ws2)
    by (now rewrite !app_assoc_str).
  change ((dq ++ m ++ dq) ++ ws2)
    with (String (ascii_of_nat 34) ((m ++ dq) ++ ws2)).
  cbn [lstrip_by].
  replace (isspace (ascii_of_nat 34)) with false by reflexivity.
  change (String (ascii_of_nat 34) ((m ++ dq) ++ ws2))
    with ((dq ++ m ++ dq) ++ ws2).
  rewrite rstrip_by_app by exact H2.
  apply rstrip_by_keep. intros pre c H.
  rewrite <- app_assoc_str in H. apply last_char_app in H. subst c.
  reflexivity.
Qed.

(** [cut_quotation] returns the text between the double quotes of a
    double-quoted value, the white space around the quotes removed,
    when the text holds no quote of either kind. *)
Theorem cut_quotation_double_quoted (ws1 ws2 m : string) :
  (forall c, mem c ws1 = true -> isspace c = true) ->
  (forall c, mem c ws2 = true -> isspace c = true) ->
  mem (ascii_of_nat 34) m = false -> mem (ascii_of_nat 39) m = false ->
  cut_quotation (ws1 ++ dq ++ m ++ dq ++ ws2) = Ok m.
Proof.
  intros H1 H2 Hd Hs. unfold cut_quotation.
  rewrite (strip_double_quoted ws1 ws2 m H1 H2).
  assert (C : contains (dq ++ m ++ dq) (ascii_of_nat 34) = true)
    by apply mem_dq_head.
  assert (N : Nat.eqb (count_char (ascii_of_nat 34) (dq ++ m ++ dq)) 2 = true).
  { rewrite !count_app, (count_zero_of_mem _ _ Hd). reflexivity. }
  assert (E : endswith (dq ++ m ++ dq) dq = true).
  { rewrite <- app_assoc_str. apply endswith_app. }
  assert (Q : strip_chars dq (dq ++ m ++ dq) = m).
  { pose proof (strip_quote_runs m 1 1 (quote_free_ends_of_mem m Hd)) as R.
    cbn [quotes] in R. rewrite app_nil_r_str in R. exact R. }
  rewrite C, N, startswith_app, E. cbn [bind assert]. rewrite Q.
  unfold contains. now rewrite Hs.
Qed.

(** A value whose number of double quotes is neither 0 nor 2 makes
    [cut_quotation] fail with the count assertion. *)
Theorem cut_quotation_bad_double_count (s : string) :
  count_char (ascii_of_nat 34) s <> 0 -> count_char (ascii_of_nat 34) s <> 2 ->
  cut_quotation s = Err (AssertionError (dq_msg (strip s))).
Proof.
  intros H0 H2. unfold cut_quotation.
  assert (K : count_char (ascii_of_nat 34) (strip s) = count_char (ascii_of_nat 34) s).
  { unfold strip, strip_by. rewrite count_rstrip, count_lstrip; reflexivity. }
  assert (C : contains (strip s) (ascii_of_nat 34) = true).
  { unfold contains. rewrite mem_count, K.
    destruct (Nat.eqb_spec (count_char (ascii_of_nat 34) s) 0); [contradiction | reflexivity]. }
  assert (N : Nat.eqb (count_char (ascii_of_nat 34) (strip s)) 2 = false).
  { rewrite K. now apply Nat.eqb_neq. }
  rewrite C, N. reflexivity.
Qed.

(** A single-quoted value keeps its single quotes: the branch for single
    quotes checks them and then strips double quotes, not single ones. *)
Theorem cut_quotation_keeps_single_quotes (m : string) :
  mem (ascii_of_nat 34) m = false -> mem (ascii_of_nat 39) m = false ->
  cut_quotation (sq ++ m ++ sq) = Ok (sq ++ m ++ sq).
Proof.
  intros Hd Hs. unfold cut_quotation.
  assert (F : sq ++ m ++ sq = String (ascii_of_nat 39) (m ++ String (ascii_of_nat 39) EmptyString))
    by reflexivity.
  assert (S : strip (sq ++ m ++ sq) = sq ++ m ++ sq).
  { rewrite F. apply strip_keep; reflexivity. }
  assert (D : contains (sq ++ m ++ sq) (ascii_of_nat 34) = false).
  { unfold contains. rewrite !mem_app, Hd. reflexivity. }
  assert (C : contains (sq ++ m ++ sq) (ascii_of_nat 39) = true).
  { rewrite F. unfold contains. cbn [mem]. now rewrite Ascii.eqb_refl. }
  assert (N : Nat.eqb (count_char (ascii_of_nat 39) (sq ++ m ++ sq)) 2 = true).
  { rewrite !count_app, (count_zero_of_mem _ _ Hs). reflexivity. }
  assert (E : endswith (sq ++ m ++ sq) sq = true).
  { rewrite <- app_assoc_str. apply endswith_app. }
  assert (Q : strip_chars dq (sq ++ m ++ sq) = sq ++ m ++ sq).
  { rewrite F. unfold strip_chars. apply strip_keep; reflexivity. }
  rewrite S, D. cbn [bind]. rewrite C, N, startswith_app, E. cbn [bind assert].
  exact (f_equal Ok Q).
Qed.

Lemma mem_strip_false (c : ascii) (s : string) :
  isspace c = false -> mem c s = false -> mem c (strip s) = false.
Proof.
  intros Hc H. rewrite mem_count in *. unfold strip, strip_by.
  rewrite count_rstrip, count_lstrip by exact Hc. exact H.
Qed.

(** A value with no quote of either kind is only stripped of the white
    space at its ends. *)
Theorem cut_quotation_plain (s : string) :
  mem (ascii_of_nat 34) s = false -> mem (ascii_of_nat 39) s = false ->
  cut_quotation s = Ok (strip s).
Proof.
  intros Hd Hs. unfold cut_quotation, contains.
  rewrite (mem_strip_false (ascii_of_nat 34) s eq_refl Hd). cbn [bind].
  now rewrite (mem_strip_false (ascii_of_nat 39) s eq_refl Hs).
Qed.

Lemma substring_split (s : string) (k : nat) :
  k <= String.length s ->
  substring 0 k s ++ substring k (String.length s - k) s = s.
Proof.
  revert k. induction s as [|a s IH]; intros k Hk; simpl in *.
  - destruct k; [reflexivity | lia].
  - destruct k as [|k]; simpl.
    + now rewrite substring_full.
    + rewrite IH by lia. reflexivity.
Qed.

Lemma endswith_split (s p : string) :
  endswith s p = true -> exists pre, s = pre ++ p.
Proof.
  unfold endswith. intros H. apply andb_true_iff in H as [Hle He].
  apply Nat.leb_le in Hle. apply String.eqb_eq in He.
  exists (substring 0 (String.length s - String.length p) s).
  transitivity (substring 0 (String.length s - String.length p) s
    ++ substring (String.length s - String.length p)
         (String.length s - (String.length s - String.length p)) s).
  - symmetry. apply substring_split. lia.
  - f_equal. replace (String.length s - (String.length s - String.length p))
      with (String.length p) by lia. exact He.
Qed.

Lemma strip_chars_dq_free (s : string) :
  mem (ascii_of_nat 34) s = false -> strip_chars dq s = s.
Proof.
  intros H. unfold strip_chars, strip_by. destruct s as [|a s']; [reflexivity|].
  pose proof H as H'. cbn [mem] in H'. apply orb_false_iff in H' as [Ha _].
  cbn [lstrip_by]. rewrite mem_dq_false
    by (intros E; subst a; now rewrite Ascii.eqb_refl in Ha).
  apply rstrip_by_keep. intros pre c Hc. rewrite Hc, mem_app in H.
  apply orb_false_iff in H as [_ H]. cbn [mem] in H.
  apply orb_false_iff in H as [H _].
  apply mem_dq_false. intros E. subst c. now rewrite Ascii.eqb_refl in H.
Qed.

Lemma cut_quotation_tail (s2 r : string) :
  mem (ascii_of_nat 34) s2 = false ->
  (if contains s2 (ascii_of_nat 39) then
     _ <- assert (sq_msg s2) (Nat.eqb (count_char (ascii_of_nat 39) s2) 2) ;;
     _ <- assert "' is not at the beginning." (startswith s2 sq) ;;
     _ <- assert "' is not at the end." (endswith s2 sq) ;;
     Ok (strip_chars dq s2)
   else Ok s2) = Ok r -> r = s2.
Proof.
  intros H. destruct (contains s2 (ascii_of_nat 39)).
  - destruct (Nat.eqb _ 2); cbn [bind assert]; [|discriminate].
    destruct (startswith s2 sq); cbn [bind assert]; [|discriminate].
    destruct (endswith s2 sq); cbn [bind assert]; [|discriminate].
    intros E. injection E as <-. now apply strip_chars_dq_free.
  - intros E. now injection E as <-.
Qed.

(** Whatever value [cut_quotation] accepts, the text it returns holds no
    double quote. *)
Theorem cut_quotation_no_double_quote (s r : string) :
  cut_quotation s = Ok r -> mem (ascii_of_nat 34) r = false.
Proof.
  unfold cut_quotation. destruct (contains (strip s) (ascii_of_nat 34)) eqn:C.
  - destruct (Nat.eqb (count_char (ascii_of_nat 34) (strip s)) 2) eqn:N;
      cbn [bind assert]; [|discriminate].
    destruct (startswith (strip s) dq) eqn:St; cbn [bind assert]; [|discriminate].
    destruct (endswith (strip s) dq) eqn:En; cbn [bind assert]; [|discriminate].
    destruct (endswith_split _ _ En) as [pre Hpre]. rewrite Hpre in N, St.
    apply Nat.eqb_eq in N. rewrite count_app in N.
    change (count_char (ascii_of_nat 34) dq) with 1 in N.
    destruct pre as [|a pre']; [simpl in N; discriminate N|].
    unfold startswith in St. change (String a pre' ++ dq) with (String a (pre' ++ dq)) in St.
    unfold dq, chr in St. cbn [String.prefix] in St.
    destruct (ascii_dec (ascii_of_nat 34) a) as [<-|]; [|discriminate St].
    cbn [count_char] in N. rewrite Ascii.eqb_refl in N.
    assert (Hm : mem (ascii_of_nat 34) pre' = false) by (rewrite mem_count; replace (count_char (ascii_of_nat 34) pre') with 0 by lia; reflexivity).
    assert (Q : strip_chars dq (String (ascii_of_nat 34) pre' ++ dq) = pre').
    { pose proof (strip_quote_runs pre' 1 1 (quote_free_ends_of_mem pre' Hm)) as R.
      cbn [quotes] in R. rewrite app_nil_r_str in R. exact R. }
    rewrite Hpre, Q. intros T. apply cut_quotation_tail in T; [|exact Hm].
    now subst r.
  - cbn [bind]. intros T. apply cut_quotation_tail in T; [|exact C]. now subst r.
Qed.

(** ** More on the note-field transform *)

Lemma insert_citekey_citekey (e : BibTexEntry) (prefix suffix : string) :
  citekey (insert_citekey e prefix suffix) = citekey e.
Proof. unfold insert_citekey. now destruct (Dict.get (data e) insert_field). Qed.

Lemma insert_citekey_entry_type (e : BibTexEntry) (prefix suffix : string) :
  entry_type (insert_citekey e prefix suffix) = entry_type e.
Proof. unfold insert_citekey. now destruct (Dict.get (data e) insert_field). Qed.

(** After [insert_citekey] the note field is always present, is quoted,
    and ends with the annotation prefix, citekey, suffix. *)
Theorem insert_citekey_note_annotated (e : BibTexEntry) (prefix suffix : string) :
  exists mid, Dict.get (data (insert_citekey e prefix suffix)) insert_field
              = Some (dq ++ mid ++ prefix ++ citekey e ++ suffix ++ dq).
Proof.
  unfold insert_citekey. destruct (Dict.get (data e) insert_field) as [v|];
    cbn [data]; rewrite set_get.
  - exists (strip_chars dq v ++ nl). now rewrite !app_assoc_str.
  - now exists EmptyString.
Qed.

(** Running the transform twice on a record without a note field gives
    a note with the annotation line twice, one per run (the tool is not
    idempotent), provided the annotation neither starts nor ends with a
    double quote. *)
Theorem insert_citekey_twice (e : BibTexEntry) (prefix suffix : string) :
  Dict.get (data e) insert_field = None ->
  quote_free_ends (prefix ++ citekey e ++ suffix) ->
  Dict.get (data (insert_citekey (insert_citekey e prefix suffix) prefix suffix))
    insert_field
  = Some (dq ++ (prefix ++ citekey e ++ suffix) ++ nl
            ++ (prefix ++ citekey e ++ suffix) ++ dq).
Proof.
  intros H Hq. unfold insert_citekey at 2. rewrite H.
  unfold insert_citekey. cbn [data citekey]. rewrite set_get.
  cbn [data citekey]. rewrite set_get.
  pose proof (strip_quote_runs _ 1 1 Hq) as R. cbn [quotes] in R.
  rewrite app_nil_r_str in R.
  replace (dq ++ prefix ++ citekey e ++ suffix ++ dq)
    with (dq ++ (prefix ++ citekey e ++ suffix) ++ dq) by now rewrite !app_assoc_str.
  rewrite R. now rewrite !app_assoc_str.
Qed.

(** [insert_citekey_to_note] keeps the records, their order, citekeys
    and types, and every record it returns has a note field. *)
Theorem insert_citekey_to_note_keeps_records (entries : list BibTexEntry)
  (prefix suffix : string) :
  map citekey (insert_citekey_to_note entries prefix suffix) = map citekey entries /\
  map entry_type (insert_citekey_to_note entries prefix suffix)
  = map entry_type entries /\
  Forall (fun e => Dict.get (data e) insert_field <> None)
    (insert_citekey_to_note entries prefix suffix).
Proof.
  unfold insert_citekey_to_note. rewrite !map_map. split; [|split].
  - apply map_ext. intros e. apply insert_citekey_citekey.
  - apply map_ext. intros e. apply insert_citekey_entry_type.
  - apply Forall_map, Forall_forall. intros e _. unfold insert_citekey.
    destruct (Dict.get (data e) insert_field); cbn [data]; rewrite set_get;
      discriminate.
Qed.

(** ** More on the splitter *)

Lemma concat_empty_cons (h : string) (t : list string) :
  join EmptyString (h :: t) = h ++ join EmptyString t.
Proof.
  unfold join. destruct t as [|h' t]; cbn [String.concat].
  - symmetry. apply app_nil_r_str.
  - reflexivity.
Qed.

Lemma concat_empty_app (a b : list string) :
  join EmptyString (a ++ b) = join EmptyString a ++ join EmptyString b.
Proof.
  induction a as [|h a IH]; [reflexivity|].
  cbn [app]. rewrite !concat_empty_cons, IH. symmetry. apply app_assoc_str.
Qed.

Lemma concat_empty_one (h : string) : join EmptyString [h] = h.
Proof. reflexivity. Qed.

Lemma step_kept (c t : list string) (x : string) :
  ignorable x = false ->
  contents_step (c, t) x
  = if opens_entry x
    then ((if Nat.ltb 0 (length t) then (c ++ [join EmptyString t])%list else c),
          [strip x])
    else (c, (t ++ [strip x])%list).
Proof.
  unfold ignorable, opens_entry, contents_step. intros H.
  apply orb_false_iff in H as [H1 H2]. now rewrite H1, H2.
Qed.

Lemma kept_lines_Forall (file : list string) :
  Forall (fun l => ignorable l = false) (kept_lines file).
Proof.
  apply Forall_forall. intros l Hl. unfold kept_lines in Hl.
  apply filter_In in Hl as [_ Hl]. now apply negb_true_iff.
Qed.

Lemma get_contents_kept (file : list string) :
  get_BibTex_file_contents file
  = let (contents, tmp_lines) := fold_left contents_step (kept_lines file) ([], []) in
    (contents ++ [join EmptyString tmp_lines])%list.
Proof. unfold get_BibTex_file_contents, kept_lines. now rewrite fold_contents_filter. Qed.

Lemma fold_concat (ys : list string) :
  Forall (fun l => ignorable l = false) ys ->
  forall c t c' t', fold_left contents_step ys (c, t) = (c', t') ->
  join EmptyString c' ++ join EmptyString t'
  = join EmptyString c ++ join EmptyString t ++ join EmptyString (map strip ys).
Proof.
  induction 1 as [|x ys Hx _ IH]; intros c t c' t' F; cbn [fold_left] in F.
  - injection F as <- <-. cbn [map]. unfold join at 3. cbn [String.concat].
    now rewrite app_nil_r_str.
  - rewrite step_kept in F by exact Hx. cbn [map]. rewrite concat_empty_cons.
    destruct (opens_entry x).
    + destruct (Nat.ltb 0 (length t)) eqn:L.
      * rewrite (IH _ _ _ _ F), concat_empty_app, concat_empty_one, concat_empty_one.
        now rewrite !app_assoc_str.
      * apply Nat.ltb_ge in L. destruct t; [|simpl in L; lia].
        rewrite (IH _ _ _ _ F), concat_empty_one. reflexivity.
    + rewrite (IH _ _ _ _ F), concat_empty_app, concat_empty_one.
      now rewrite !app_assoc_str.
Qed.

(** The splitter loses no text: its chunks, concatenated, are the kept
    lines, each stripped, concatenated. *)
Theorem get_BibTex_file_contents_concat (file : list string) :
  join EmptyString (get_BibTex_file_contents file)
  = join EmptyString (map strip (kept_lines file)).
Proof.
  rewrite get_contents_kept.
  destruct (fold_left contents_step (kept_lines file) ([], [])) as [c' t'] eqn:F.
  rewrite concat_empty_app, concat_empty_one.
  exact (fold_concat _ (kept_lines_Forall file) _ _ _ _ F).
Qed.

Lemma prefix_app_l (p l x : string) :
  String.prefix p l = true -> String.prefix p (l ++ x) = true.
Proof.
  revert l. induction p as [|a p IH]; intros l H; [destruct (l ++ x); reflexivity|].
  destruct l as [|b l]; [discriminate H|]. cbn [String.prefix] in H.
  change (String b l ++ x) with (String b (l ++ x)). cbn [String.prefix].
  destruct (ascii_dec a b); [now apply IH | discriminate H].
Qed.

Lemma startswith_join (l : string) (r : list string) :
  startswith l "@" = true -> startswith (join EmptyString (l :: r)) "@" = true.
Proof. intros H. rewrite concat_empty_cons. now apply prefix_app_l. Qed.

Lemma tl_app_one (c : list string) (x : string) :
  c <> [] -> tl (c ++ [x])%list = (tl c ++ [x])%list.
Proof. destruct c; [contradiction | reflexivity]. Qed.

Lemma fold_tail_inv (ys : list string) :
  Forall (fun l => ignorable l = false) ys ->
  forall st, tail_inv st -> tail_inv (fold_left contents_step ys st).
Proof.
  induction 1 as [|x ys Hx _ IH]; intros [c t] [Hc Ht]; cbn [fold_left]; [now split|].
  apply IH. rewrite step_kept by exact Hx. cbn [fst snd] in *.
  destruct (opens_entry x) eqn:O.
  - split; cbn [fst snd].
    + destruct (Nat.ltb 0 (length t)); [|exact Hc].
      destruct c as [|c0 c]; [constructor|].
      rewrite tl_app_one by discriminate. apply Forall_app. split; [exact Hc|].
      destruct (Ht ltac:(discriminate)) as [l [r [-> Hl]]].
      constructor; [now apply startswith_join | constructor].
    + intros _. exists (strip x), []. split; [reflexivity | exact O].
  - split; cbn [fst snd]; [exact Hc|].
    intros Hne. destruct (Ht Hne) as [l [r [-> Hl]]].
    exists l, (r ++ [strip x])%list. split; [reflexivity | exact Hl].
Qed.

(** Every chunk but the first starts with [@]: only the first chunk can
    hold the text before the first entry line. *)
Theorem get_BibTex_file_contents_tail_entries (file : list string) :
  Forall (fun ch => startswith ch "@" = true) (tl (get_BibTex_file_contents file)).
Proof.
  rewrite get_contents_kept.
  pose proof (fold_tail_inv _ (kept_lines_Forall file) ([], [])) as I.
  destruct (fold_left contents_step (kept_lines file) ([], [])) as [c t].
  destruct I as [Hc Ht]; [split; [constructor | contradiction]|].
  cbn [fst snd] in *. destruct c as [|c0 c]; [constructor|].
  rewrite tl_app_one by discriminate. apply Forall_app. split; [exact Hc|].
  destruct (Ht ltac:(discriminate)) as [l [r [-> Hl]]].
  constructor; [now apply startswith_join | constructor].
Qed.

Lemma fold_count (ys : list string) :
  Forall (fun l => ignorable l = false) ys ->
  forall c t, t <> [] ->
  length (fst (fold_left contents_step ys (c, t)))
  = length c + length (filter opens_entry ys) /\
  snd (fold_left contents_step ys (c, t)) <> [].
Proof.
  induction 1 as [|x ys Hx _ IH]; intros c t Ht; cbn [fold_left filter].
  - split; [cbn [fst length]; lia | exact Ht].
  - rewrite step_kept by exact Hx. destruct (opens_entry x).
    + destruct (Nat.ltb 0 (length t)) eqn:L.
      * destruct (IH (c ++ [join EmptyString t])%list [strip x] ltac:(discriminate))
          as [E N].
        split; [|exact N]. rewrite E, length_app. cbn [length]. lia.
      * apply Nat.ltb_ge in L. destruct t; [contradiction | cbn [length] in L; lia].
    + destruct (IH c (t ++ [strip x])%list) as [E N].
      * destruct t; discriminate.
      * split; [|exact N]. exact E.
Qed.

(** The number of chunks is the number of kept lines that start with
    [@], plus one when the first kept line does not start with [@]
    (also when there is no kept line: one empty chunk). *)
Theorem get_BibTex_file_contents_count (file : list string) :
  length (get_BibTex_file_contents file)
  = length (filter opens_entry (kept_lines file))
    + (if opens_entry (hd EmptyString (kept_lines file)) then 0 else 1).
Proof.
  rewrite get_contents_kept. pose proof (kept_lines_Forall file) as K.
  destruct (kept_lines file) as [|y ys]; [reflexivity|].
  inversion K as [|y' ys' Hy Hys]; subst.
  cbn [fold_left hd filter]. rewrite step_kept by exact Hy.
  assert (E : forall b : bool,
    (if b then ((if Nat.ltb 0 (length (@nil string))
                 then ([] ++ [join EmptyString []])%list else []), [strip y])
     else ([], ([] ++ [strip y])%list)) = ([], [strip y]))
    by (intros []; reflexivity).
  rewrite E. destruct (fold_count ys Hys [] [strip y] ltac:(discriminate)) as [L _].
  destruct (fold_left contents_step ys ([], [strip y])) as [c' t'].
  cbn [fst length] in L. rewrite length_app, L. cbn [length].
  destruct (opens_entry y); cbn [length]; lia.
Qed.

Lemma fold_head (l : string) (ys : list string) :
  Forall (fun y => ignorable y = false) ys ->
  forall st,
  (fst st = [] /\ exists r, snd st = l :: r) \/ (exists x c0, fst st = (l ++ x) :: c0) ->
  let st' := fold_left contents_step ys st in
  (fst st' = [] /\ exists r, snd st' = l :: r) \/
  (exists x c0, fst st' = (l ++ x) :: c0).
Proof.
  induction 1 as [|y ys Hy _ IH]; intros [c t] H; cbn [fold_left]; [exact H|].
  apply IH. rewrite step_kept by exact Hy. cbn [fst snd] in H.
  destruct H as [[-> [r ->]] | [x [c0 ->]]]; destruct (opens_entry y); cbn [fst snd].
  - right. exists (join EmptyString r), []. cbn [length Nat.ltb app].
    now rewrite concat_empty_cons.
  - left. split; [reflexivity|]. now exists (r ++ [strip y])%list.
  - right. exists x. destruct (Nat.ltb 0 (length t)); eexists; reflexivity.
  - right. exists x, c0. reflexivity.
Qed.

Lemma first_chunk (file : list string) :
  exists x rest, get_BibTex_file_contents file
                 = (strip (hd EmptyString (kept_lines file)) ++ x) :: rest /\
                 (kept_lines file = [] -> x = EmptyString).
Proof.
  rewrite get_contents_kept. pose proof (kept_lines_Forall file) as K.
  destruct (kept_lines file) as [|y ys]; [now exists EmptyString, []|].
  inversion K as [|y' ys' Hy Hys]; subst.
  cbn [fold_left hd]. rewrite step_kept by exact Hy.
  assert (E : forall b : bool,
    (if b then ((if Nat.ltb 0 (length (@nil string))
                 then ([] ++ [join EmptyString []])%list else []), [strip y])
     else ([], ([] ++ [strip y])%list)) = ([], [strip y]))
    by (intros []; reflexivity).
  rewrite E.
  pose proof (fold_head (strip y) ys Hys ([], [strip y])
                (or_introl (conj eq_refl (ex_intro _ [] eq_refl)))) as H.
  destruct (fold_left contents_step ys ([], [strip y])) as [c' t'].
  cbn [fst snd] in H. destruct H as [[-> [r ->]] | [x [c0 ->]]].
  - exists (join EmptyString r), []. cbn [app]. rewrite concat_empty_cons.
    split; [reflexivity | discriminate].
  - exists x, (c0 ++ [join EmptyString t'])%list. split; [reflexivity | discriminate].
Qed.

Lemma startswith_at_app (l x : string) :
  l <> EmptyString -> startswith l "@" = false -> startswith (l ++ x) "@" = false.
Proof.
  destruct l as [|a l]; [contradiction|]. intros _.
  unfold startswith. change (String a l ++ x) with (String a (l ++ x)).
  cbn [String.prefix]. destruct (ascii_dec "@"%char a); [|reflexivity].
  destruct l; discriminate.
Qed.

Lemma strip_hd_kept_nonempty (file : list string) :
  kept_lines file <> [] -> strip (hd EmptyString (kept_lines file)) <> EmptyString.
Proof.
  pose proof (kept_lines_Forall file) as K. destruct (kept_lines file) as [|y ys];
    [contradiction|]. intros _. inversion K as [|y' ys' Hy _]; subst.
  cbn [hd]. unfold ignorable in Hy. apply orb_false_iff in Hy as [_ Hy].
  intros E. rewrite E in Hy. discriminate Hy.
Qed.

(** A file whose first kept line does not start with [@] (text before
    the first entry), or that has no kept line at all, is rejected: the
    first chunk fails the decoder's first assertion, and [main] stops
    there without writing anything. *)
Theorem read_BibTex_file_rejects_preamble (file : list string) :
  opens_entry (hd EmptyString (kept_lines file)) = false ->
  read_BibTex_file file = Err (AssertionError "entry.startswith('@')") /\
  forall isfile output_file_path prefix suffix,
    output_file_path <> EmptyString -> isfile output_file_path = false ->
    main isfile file output_file_path prefix suffix
    = Err (AssertionError "entry.startswith('@')").
Proof.
  intros H. destruct (first_chunk file) as [x [rest [E X]]].
  assert (S : startswith (strip (hd EmptyString (kept_lines file)) ++ x) "@" = false).
  { destruct (kept_lines file) as [|y ys] eqn:K.
    - now rewrite (X eq_refl).
    - apply startswith_at_app; [|exact H].
      pose proof (strip_hd_kept_nonempty file) as N. rewrite K in N.
      apply N. discriminate. }
  assert (R : read_BibTex_file file = Err (AssertionError "entry.startswith('@')")).
  { unfold read_BibTex_file. rewrite E. cbn [map_result].
    unfold convert_str_to_BibTexEntry, decode_header. rewrite S. reflexivity. }
  split; [exact R|].
  intros isfile out prefix suffix Hout Hf. unfold main.
  apply String.eqb_neq in Hout. rewrite Hout, Hf, R. reflexivity.
Qed.

Lemma map_result_ok {A B} (f : A -> result B) (l : list A) (ys : list B) :
  map_result f l = Ok ys -> Forall2 (fun x y => f x = Ok y) l ys.
Proof.
  revert ys. induction l as [|x l IH]; intros ys; cbn [map_result].
  - intros E. injection E as <-. constructor.
  - destruct (f x) as [y|e] eqn:Fx; cbn [bind]; [|discriminate].
    destruct (map_result f l) as [zs|e]; cbn [bind]; [|discriminate].
    intros E. injection E as <-. constructor; [exact Fx | now apply IH].
Qed.

(** A successful read decodes every chunk, in order, one record per
    chunk, and the citekeys of the records are pairwise distinct. *)
Theorem read_BibTex_file_ok (file : list string) (entries : list BibTexEntry) :
  read_BibTex_file file = Ok entries ->
  Forall2 (fun ch e => convert_str_to_BibTexEntry ch = Ok e)
    (get_BibTex_file_contents file) entries /\
  NoDup (map citekey entries).
Proof.
  unfold read_BibTex_file.
  destruct (map_result convert_str_to_BibTexEntry (get_BibTex_file_contents file))
    as [es|e] eqn:M; cbn [bind]; [|discriminate].
  destruct (Nat.eqb (length es) (length (nodup string_dec (map citekey es)))) eqn:L;
    cbn [assert bind]; [|discriminate].
  intros E. injection E as <-. split; [now apply map_result_ok|].
  apply nodup_length_NoDup. apply Nat.eqb_eq in L. rewrite length_map. lia.
Qed.

(** ** The header survives formatting and decoding *)

Lemma format_entry_body (e : BibTexEntry) :
  format_BibTexEntry_to_str e = "@" ++ entry_type e ++ entry_body e.
Proof. reflexivity. Qed.

Lemma split_char_first (c : ascii) (t x cur : string) :
  mem c t = false ->
  split_go (String c EmptyString) (t ++ String c x) 0 cur
  = (cur ++ t) :: split_go (String c EmptyString) x 0 EmptyString.
Proof.
  revert cur. induction t as [|a t IH]; intros cur H.
  - cbn [append split_go String.prefix]. destruct (ascii_dec c c); [|contradiction].
    replace (String.prefix EmptyString x) with true by (destruct x; reflexivity).
    now rewrite app_nil_r_str.
  - cbn [mem] in H. apply orb_false_iff in H as [Ha H].
    change (String a t ++ String c x) with (String a (t ++ String c x)).
    cbn [split_go String.prefix]. destruct (ascii_dec c a) as [->|_].
    + now rewrite Ascii.eqb_refl in Ha.
    + rewrite (IH _ H). now rewrite app_assoc_str.
Qed.

Lemma split_go_skip (sep x r cur : string) :
  split_go sep (x ++ r) (String.length x) cur = split_go sep r 0 cur.
Proof. induction x as [|a x IH]; [reflexivity | exact IH]. Qed.

Lemma split_go_absent (sep s cur : string) :
  occurs sep s = false -> split_go sep s 0 cur = [cur ++ s].
Proof.
  revert cur. induction s as [|a s IH]; intros cur H.
  - now rewrite app_nil_r_str.
  - cbn [occurs] in H. apply orb_false_iff in H as [Hp H].
    cbn [split_go]. rewrite Hp, (IH _ H). now rewrite app_assoc_str.
Qed.

Lemma split_sep_first (sep b : string) :
  sep <> EmptyString -> occurs sep b = false ->
  split (sep ++ b) sep = [EmptyString; b].
Proof.
  intros Hs Hb. unfold split. destruct sep as [|a t]; [contradiction|].
  pose proof (startswith_app (String a t) b) as P. unfold startswith in P.
  change (String a t ++ b) with (String a (t ++ b)) in *. cbn [split_go].
  rewrite P. cbn [String.length].
  replace (S (String.length t) - 1) with (String.length t) by lia.
  rewrite split_go_skip.
  now rewrite split_go_absent.
Qed.

Lemma substring_prefix (m y : string) : substring 0 (String.length m) (m ++ y) = m.
Proof. induction m as [|a m IH]; [destruct y; reflexivity | cbn; now rewrite IH]. Qed.

Lemma slice_inner (a b : ascii) (m : string) :
  slice_1_m1 (String a (m ++ String b EmptyString)) = m.
Proof.
  unfold slice_1_m1. cbn [String.length]. rewrite length_app_str. cbn [String.length].
  replace (S (String.length m + 1) - 2) with (String.length m) by lia.
  cbn [substring]. apply substring_prefix.
Qed.

(** Decoding a formatted record gives back its citekey and entry type,
    when the type is not empty and holds no opening brace, the citekey
    holds no comma, and the type does not occur again in the rest of
    the text (the decoder splits the text on the type). *)
Theorem convert_format_header (e : BibTexEntry) :
  entry_type e <> EmptyString ->
  mem "{"%char (entry_type e) = false ->
  mem ","%char (citekey e) = false ->
  occurs (entry_type e) (entry_body e) = false ->
  exists d, convert_str_to_BibTexEntry (format_BibTexEntry_to_str e)
            = Ok (mkEntry (citekey e) (entry_type e) d).
Proof.
  intros Hty Hbr Hco Hocc. rewrite format_entry_body.
  set (M := citekey e ++ "," ++ nl
              ++ join nl (map (fun '(field, value) => field ++ " = " ++ value ++ ",")
                            (data e)) ++ nl).
  assert (EB : entry_body e = String "{"%char (M ++ "}")).
  { change (String "{"%char (M ++ "}")) with ("{" ++ (M ++ "}")).
    unfold entry_body, M. now rewrite !app_assoc_str. }
  unfold convert_str_to_BibTexEntry, decode_header.
  rewrite startswith_app. cbn [bind assert].
  assert (C : contains ("@" ++ entry_type e ++ entry_body e) "{"%char = true).
  { unfold contains. rewrite !mem_app, EB. cbn [mem].
    now rewrite Ascii.eqb_refl, !orb_true_r. }
  rewrite C. cbn [bind assert].
  change (drop1 ("@" ++ entry_type e ++ entry_body e))
    with (entry_type e ++ entry_body e).
  assert (H0 : head0 (split (entry_type e ++ entry_body e) "{") = entry_type e).
  { rewrite EB. unfold split. change "{" with (String "{"%char EmptyString).
    rewrite (split_char_first _ _ _ _ Hbr). reflexivity. }
  rewrite H0. apply String.eqb_neq in Hty. rewrite Hty.
  rewrite (split_sep_first _ _ (proj1 (String.eqb_neq _ _) Hty) Hocc).
  cbn [index1 nth_error bind].
  assert (St : startswith (entry_body e) "{" = true)
    by (rewrite EB; exact (startswith_app "{" (M ++ "}"))).
  assert (E : endswith (entry_body e) "}" = true)
    by (rewrite EB; exact (endswith_app ("{" ++ M) "}")).
  rewrite St. cbn [bind assert]. rewrite E. cbn [bind assert].
  rewrite EB, slice_inner.
  assert (K : head0 (split M ",") = citekey e).
  { unfold M, split. change ("," ++ ?r) with (String ","%char r).
    change "," with (String ","%char EmptyString).
    rewrite (split_char_first _ _ _ _ Hco). reflexivity. }
  rewrite K. eexists. reflexivity.
Qed.

(** ** The run as a whole *)

(** When [main] succeeds, the output path is the given one, which is
    not empty and names no existing file, and the written text opens
    with the line [% itemnum: N] where [N] is the number of chunks the
    splitter cut the input into. *)
Theorem main_ok (isfile : string -> bool) (input_file : list string)
  (output_file_path prefix suffix path text : string) :
  main isfile input_file output_file_path prefix suffix = Ok (path, text) ->
  path = output_file_path /\ output_file_path <> EmptyString /\
  isfile output_file_path = false /\
  exists rest,
    text = "% itemnum: " ++ str_of_nat (length (get_BibTex_file_contents input_file))
           ++ nl ++ rest.
Proof.
  unfold main.
  destruct (String.eqb output_file_path EmptyString) eqn:Eo; [discriminate|].
  destruct (isfile output_file_path) eqn:Ef; [discriminate|].
  unfold read_BibTex_file.
  destruct (map_result convert_str_to_BibTexEntry (get_BibTex_file_contents input_file))
    as [es|e] eqn:M; cbn [bind]; [|discriminate].
  destruct (Nat.eqb (length es) (length (nodup string_dec (map citekey es))));
    cbn [assert bind]; [|discriminate].
  intros R. injection R as <- <-.
  split; [reflexivity|]. split; [now apply String.eqb_neq|]. split; [reflexivity|].
  eexists. unfold save_as_BibTex_file, insert_citekey_to_note.
  rewrite !length_map, (Forall2_length (map_result_ok _ _ _ M)). reflexivity.
Qed.

(** ** Instances of the properties *)

Lemma cut_quotation_double_quoted_witness :
  cut_quotation (" " ++ dq ++ "a b" ++ dq ++ " ") = Ok "a b".
Proof.
  assert (W : forall c, mem c " " = true -> isspace c = true).
  { intros c Hc. cbn [mem] in Hc. rewrite orb_false_r in Hc.
    apply Ascii.eqb_eq in Hc. subst c. reflexivity. }
  apply (cut_quotation_double_quoted " " " " "a b" W W); vm_compute; reflexivity.
Defined.

Lemma cut_quotation_bad_double_count_witness :
  cut_quotation (dq ++ "ab") = Err (AssertionError (dq_msg (strip (dq ++ "ab")))).
Proof. apply cut_quotation_bad_double_count; vm_compute; lia. Defined.

Lemma cut_quotation_keeps_single_quotes_witness :
  cut_quotation (sq ++ "ab" ++ sq) = Ok (sq ++ "ab" ++ sq).
Proof. apply cut_quotation_keeps_single_quotes; vm_compute; reflexivity. Defined.

Lemma cut_quotation_plain_witness :
  cut_quotation " value " = Ok (strip " value ").
Proof. apply cut_quotation_plain; vm_compute; reflexivity. Defined.

Lemma cut_quotation_no_double_quote_witness :
  cut_quotation (dq ++ "a" ++ dq) = Ok "a" /\ mem (ascii_of_nat 34) "a" = false.
Proof.
  assert (H : cut_quotation (dq ++ "a" ++ dq) = Ok "a") by (vm_compute; reflexivity).
  split; [exact H | exact (cut_quotation_no_double_quote _ _ H)].
Defined.

Lemma insert_citekey_twice_witness :
  Dict.get (data (insert_citekey (insert_citekey (mkEntry "k" "misc" []) "P-" "-S")
                    "P-" "-S")) insert_field
  = Some (dq ++ ("P-" ++ "k" ++ "-S") ++ nl ++ ("P-" ++ "k" ++ "-S") ++ dq).
Proof.
  apply (insert_citekey_twice (mkEntry "k" "misc" [])).
  - reflexivity.
  - apply quote_free_ends_of_mem. vm_compute. reflexivity.
Defined.

Lemma read_BibTex_file_rejects_preamble_witness :
  read_BibTex_file ["Created by hand"; "@misc{k,"; "}"]
  = Err (AssertionError "entry.startswith('@')").
Proof.
  assert (H : opens_entry (hd EmptyString (kept_lines ["Created by hand"; "@misc{k,"; "}"]))
              = false) by (vm_compute; reflexivity).
  exact (proj1 (read_BibTex_file_rejects_preamble _ H)).
Defined.

Lemma read_BibTex_file_ok_witness :
  Forall2 (fun ch e => convert_str_to_BibTexEntry ch = Ok e)
    (get_BibTex_file_contents ["@misc{k,"; "title = a"; "}"])
    [mkEntry "k" "misc" [("title", " a")]] /\
  NoDup (map citekey [mkEntry "k" "misc" [("title", " a")]]).
Proof. apply read_BibTex_file_ok. vm_compute. reflexivity. Defined.

Lemma convert_format_header_witness :
  exists d, convert_str_to_BibTexEntry
              (format_BibTexEntry_to_str (mkEntry "k" "misc" [("title", "a")]))
            = Ok (mkEntry "k" "misc" d).
Proof.
  apply (convert_format_header (mkEntry "k" "misc" [("title", "a")]));
    [discriminate | vm_compute; reflexivity ..].
Defined.

Lemma main_ok_witness :
  exists rest,
    save_as_BibTex_file
      (insert_citekey_to_note [mkEntry "k" "misc" [("title", " a")]] "" "")
    = "% itemnum: " ++ str_of_nat (length (get_BibTex_file_contents
                                            ["@misc{k,"; "title = a"; "}"]))
      ++ nl ++ rest.
Proof.
  apply (main_ok (fun _ => false) ["@misc{k,"; "title = a"; "}"] "out.bib" "" ""
           "out.bib").
  vm_compute. reflexivity.
Defined.
